(** * flatmap-maker: features, the feature index and the shape-tree reduction

    A shallow embedding of
    - [mapmaker/flatmap/feature.py] (classes [Feature] and [FeatureMap]), and
    - [mapmaker/sources/powerpoint/__init__.py]
      ([PowerpointLayer.__process_shape_list]),
    followed by the properties the specification states about them.

    Python objects are mutable; the embedding passes state explicitly.  A
    method that mutates its receiver returns the receiver's new value, and a
    method that logs returns the records it emitted. *)

From stdpp Require Import gmap strings list fin_maps.
From Stdlib Require Import ZArith Lia Permutation Sorted.

Open Scope Z_scope.

(* ===================================================================== *)
(** ** Python values held in property dictionaries *)
(* ===================================================================== *)

(** Property values are [Any] in the source.  The values that markup
    produces are [None], integers and strings.  Python's [bool] is a subclass
    of [int] ([True == 1], same hash), so [True]/[False] are [PyInt 1] and
    [PyInt 0]: with this reading Python's [==] on these values is Leibniz
    equality, which is what dictionary keys and [in] use. *)
Inductive PyValue : Type :=
| PyNone
| PyInt (n : Z)
| PyStr (s : string).

#[global] Instance PyValue_eq_dec : EqDecision PyValue.
Proof. solve_decision. Defined.

Definition PyValue_encode (v : PyValue) : unit + (Z + string) :=
  match v with
  | PyNone => inl tt
  | PyInt n => inr (inl n)
  | PyStr s => inr (inr s)
  end.

Definition PyValue_decode (x : unit + (Z + string)) : PyValue :=
  match x with
  | inl _ => PyNone
  | inr (inl n) => PyInt n
  | inr (inr s) => PyStr s
  end.

#[global] Instance PyValue_countable : Countable PyValue.
Proof.
  apply (inj_countable' PyValue_encode PyValue_decode).
  by intros [].
Defined.

Definition PyTrue : PyValue := PyInt 1.
Definition PyFalse : PyValue := PyInt 0.

(** Python truthiness, as used by [if x:] and [not x]. *)
Definition truthy (v : PyValue) : bool :=
  match v with
  | PyNone => false
  | PyInt n => negb (n =? 0)
  | PyStr s => negb (String.eqb s "")
  end.

(** [v is None] *)
Definition is_None (v : PyValue) : bool :=
  match v with
  | PyNone => true
  | _ => false
  end.

(** [a != b] *)
Definition py_ne (a b : PyValue) : bool := negb (bool_decide (a = b)).

(** A property dictionary: [dict] with string keys. *)
Abbreviation Properties := (gmap string PyValue).

(** [d.get(key, default)] *)
Definition dict_get {K} `{Countable K} {V} (d : gmap K V) (key : K) (dflt : V) : V :=
  default dflt (d !! key).

(** [key in d] *)
Definition dict_in {V} (key : string) (d : gmap string V) : bool :=
  bool_decide (is_Some (d !! key)).

(** [d[key].append(x)] on a [defaultdict(list)]: a missing key is first
    bound to the empty list. *)
Definition defaultdict_append {K} `{Countable K} {V}
    (d : gmap K (list V)) (key : K) (x : V) : gmap K (list V) :=
  <[key := default [] (d !! key) ++ [x]]> d.

(* ===================================================================== *)
(** ** The geometry library *)
(* ===================================================================== *)

(** [shapely.geometry.base.BaseGeometry] is used through three members only:
    the [geom_type] string, the [centroid] (itself a geometry) and the
    [contains] predicate. *)
Class BaseGeometry (G : Type) : Type := {
  geom_type : G -> string;
  centroid : G -> G;
  contains : G -> G -> bool
}.

(* ===================================================================== *)
(** ** class Feature *)
(* ===================================================================== *)

Section FeatureModel.
Context {G : Type} `{BaseGeometry G}.

Record Feature : Type := mkFeature {
  feature_id : Z;
  geometry : G;
  properties : Properties;
  has_children : bool
}.

(** [Feature.__init__]: the caller's dictionary is copied, then the two
    reserved keys are written. *)
Definition Feature_init (feature_id : Z) (geometry : G)
    (properties : Properties) (has_children : bool) : Feature :=
  {| feature_id := feature_id;
     geometry := geometry;
     properties :=
       <["geometry" := PyStr (geom_type geometry)]>
         (<["featureId" := PyInt feature_id]> properties);
     has_children := has_children |}.

(** [Feature.get_property]: [self.__properties.get(property, default)]. *)
Definition get_property (self : Feature) (property : string)
    (dflt : PyValue) : PyValue :=
  dict_get (properties self) property dflt.

(** [Feature.id]: [self.__properties.get('id')]. *)
Definition id (self : Feature) : PyValue :=
  dict_get (properties self) "id" PyNone.

(** [Feature.models]: [self.__properties.get('models')]. *)
Definition models (self : Feature) : PyValue :=
  dict_get (properties self) "models" PyNone.

(** [Feature.visible]: [not self.get_property('invisible')]. *)
Definition visible (self : Feature) : bool :=
  negb (truthy (get_property self "invisible" PyNone)).

(** [Feature.del_property]: pops the key when present and returns the popped
    value; falls off the end (returning [None]) when absent. *)
Definition del_property (self : Feature) (property : string)
    : PyValue * Feature :=
  match properties self !! property with
  | Some v =>
      (v, {| feature_id := feature_id self;
             geometry := geometry self;
             properties := delete property (properties self);
             has_children := has_children self |})
  | None => (PyNone, self)
  end.

(** [Feature.has_property]: [self.__properties.get(property, '') != '']. *)
Definition has_property (self : Feature) (property : string) : bool :=
  py_ne (dict_get (properties self) property (PyStr "")) (PyStr "").

(** [Feature.set_property]: deletes on [None], stores anything else. *)
Definition set_property (self : Feature) (property : string)
    (value : PyValue) : Feature :=
  if is_None value then snd (del_property self property)
  else {| feature_id := feature_id self;
          geometry := geometry self;
          properties := <[property := value]> (properties self);
          has_children := has_children self |}.

(* ===================================================================== *)
(** ** class FeatureMap *)
(* ===================================================================== *)

(** The three dictionaries and the list of already reported failed
    resolutions.  The lists held by the index denote the features' state at
    the time of a query. *)
Record FeatureMap : Type := mkFeatureMap {
  class_to_features : gmap PyValue (list Feature);
  id_to_feature : gmap PyValue Feature;
  model_to_features : gmap PyValue (list Feature);
  unknown_anatomy : list (PyValue * list PyValue)
}.

(** [FeatureMap.__init__] *)
Definition FeatureMap_init : FeatureMap :=
  {| class_to_features := ∅;
     id_to_feature := ∅;
     model_to_features := ∅;
     unknown_anatomy := [] |}.

(** [FeatureMap.add_feature]: three independent [if]s, in this order. *)
Definition add_feature (self : FeatureMap) (feature : Feature) : FeatureMap :=
  let ids :=
    if is_None (id feature) then id_to_feature self
    else <[id feature := feature]> (id_to_feature self) in
  let classes :=
    if has_property feature "class"
    then defaultdict_append (class_to_features self)
           (get_property feature "class" PyNone) feature
    else class_to_features self in
  let by_model :=
    if is_None (models feature) then model_to_features self
    else defaultdict_append (model_to_features self) (models feature) feature in
  {| class_to_features := classes;
     id_to_feature := ids;
     model_to_features := by_model;
     unknown_anatomy := unknown_anatomy self |}.

(** [FeatureMap.duplicate_id] *)
Definition duplicate_id (self : FeatureMap) (id : PyValue) : bool :=
  bool_decide (is_Some (id_to_feature self !! id)).

(** [FeatureMap.features]: the values of [id_to_feature] are Feature
    objects, so [feature is None] holds exactly when the key is missing. *)
Definition features (self : FeatureMap) (id : PyValue) : list Feature :=
  match id_to_feature self !! id with
  | None => dict_get (class_to_features self) id []
  | Some feature => [feature]
  end.

(** [FeatureMap.feature_ids] *)
Definition feature_ids (self : FeatureMap) (ids : list PyValue) : list Z :=
  flat_map (fun id => map feature_id (features self id)) ids.

(** Error records sent to [log.error] by the resolver; the two f-strings are
    kept as the data they interpolate. *)
Inductive LogRecord : Type :=
| CannotFind (anatomical_id : PyValue)
| CannotFindInLayers (anatomical_id : PyValue) (anatomical_layers : list PyValue).

(** The two nested [for] loops of one layer: container-major, every
    (container, candidate) pair whose test succeeds appends the candidate. *)
Definition included_features_of (layer_features features : list Feature)
    : list Feature :=
  flat_map
    (fun layer_feature =>
       List.filter
         (fun feature =>
            contains (geometry layer_feature) (centroid (geometry feature)))
         features)
    layer_features.

(** The [for anatomical_layer in anatomical_layers] loop.  The accumulator is
    the variable [anatomical_features]; [break] returns at once. *)
Fixpoint layers_loop (self : FeatureMap) (features : list Feature)
    (anatomical_layers : list PyValue) (anatomical_features : list Feature)
    : list Feature :=
  match anatomical_layers with
  | [] => anatomical_features
  | anatomical_layer :: rest =>
      let layer_features :=
        dict_get (model_to_features self) anatomical_layer [] in
      let included_features := included_features_of layer_features features in
      if (length included_features =? 1)%nat then included_features
      else layers_loop self features rest included_features
  end.

(** [FeatureMap.find_features_by_anatomical_id]: returns the features, the
    updated index and the records logged by this call.  In the [else] branch
    the list is non-empty, so the loop assigns [anatomical_features] at least
    once and the initial accumulator is never returned.  The list of layers
    is a value here: the tuple kept in [unknown_anatomy] is compared with
    [==], and a caller is taken not to mutate a list it has passed. *)
Definition find_features_by_anatomical_id (self : FeatureMap)
    (anatomical_id : PyValue) (anatomical_layers : list PyValue)
    : list Feature * FeatureMap * list LogRecord :=
  let anatomical_features :=
    if (length anatomical_layers =? 0)%nat
    then dict_get (model_to_features self) anatomical_id []
    else
      let features := dict_get (model_to_features self) anatomical_id [] in
      layers_loop self features anatomical_layers [] in
  if (length anatomical_features =? 0)%nat then
    if bool_decide ((anatomical_id, anatomical_layers) ∈ unknown_anatomy self)
    then (anatomical_features, self, [])
    else
      (anatomical_features,
       {| class_to_features := class_to_features self;
          id_to_feature := id_to_feature self;
          model_to_features := model_to_features self;
          unknown_anatomy :=
            unknown_anatomy self ++ [(anatomical_id, anatomical_layers)] |},
       [if (length anatomical_layers =? 0)%nat
        then CannotFind anatomical_id
        else CannotFindInLayers anatomical_id anatomical_layers])
  else (anatomical_features, self, []).

End FeatureModel.

Arguments Feature G : clear implicits.
Arguments FeatureMap G : clear implicits.

(* ===================================================================== *)
(** ** The shape tree and [PowerpointLayer.__process_shape_list] *)
(* ===================================================================== *)

Section PowerpointModel.
Context {G : Type} `{BaseGeometry G}.

(** A shape as the reduction reads it: [shape.geometry] and the dictionary
    [shape.properties], which the loop body writes to in place. *)
Record Shape : Type := mkShape {
  shape_geometry : G;
  shape_properties : Properties
}.

(** An element of a [TreeList] is a shape or a nested [TreeList]
    ([isinstance(shape, TreeList)]). *)
#[warnings="-register-all"]
Inductive TreeNode : Type :=
| ShapeNode (shape : Shape)
| TreeList (shapes : list TreeNode).

(** The part of the [FlatMap] object the reduction touches. *)
Record FlatMap : Type := mkFlatMap {
  last_feature_id : Z;
  feature_map : FeatureMap G
}.

(** Modelled from the spec: [FlatMap.new_feature] is not among the sources.
    The specification has the constructor assign the build-unique numeric id
    and register the new Feature into the index; ids are handed out by a
    counter.  [Feature.__init__] and [FeatureMap.add_feature] are the
    source's. *)
Definition new_feature (self : FlatMap) (geometry : G)
    (properties : Properties) : Feature G * FlatMap :=
  let feature_id := last_feature_id self + 1 in
  let feature := Feature_init feature_id geometry properties false in
  (feature,
   {| last_feature_id := feature_id;
      feature_map := add_feature (feature_map self) feature |}).

(** State of the [MapLayer] base class, which is not among the sources. *)
Context {MapLayer : Type}.

Record PowerpointLayer : Type := mkPowerpointLayer {
  flatmap : FlatMap;
  base : MapLayer
}.

(** Collaborators that are not among the sources, taken as parameters:
    - [self.source.check_markup_errors(properties)], through what it leaves
      in the dictionary it is handed;
    - the constant [FEATURES_TILE_LAYER];
    - the inherited method [MapLayer.add_features(group_name, features)],
      which may update the layer and the flatmap and returns a Feature or
      [None]. *)
Variable check_markup_errors : Properties -> Properties.
Variable FEATURES_TILE_LAYER : PyValue.
Variable add_features :
  string -> list (Feature G) -> PowerpointLayer ->
  option (Feature G) * PowerpointLayer.

(** Calls made by the reduction to its collaborators, in program order; a
    [NewFeature] call is kept with the Feature it returned. *)
Inductive Call : Type :=
| CheckMarkupErrors (properties : Properties)
| NewFeature (geometry : G) (properties : Properties) (result : Feature G)
| AddFeatures (group_name : string) (features : list (Feature G)).

(** Computations on the layer that also record their calls. *)
Definition M (A : Type) : Type :=
  PowerpointLayer -> A * PowerpointLayer * list Call.

Definition ret {A} (a : A) : M A := fun self => (a, self, []).

Definition bind {A B} (m : M A) (k : A -> M B) : M B :=
  fun self =>
    let '(a, self1, calls1) := m self in
    let '(b, self2, calls2) := k a self1 in
    (b, self2, calls1 ++ calls2).

Notation "'let!' x ':=' m 'in' k" := (bind m (fun x => k))
  (at level 10, x pattern, m at level 100, k at level 200, only parsing).

Definition call_check_markup_errors (properties : Properties) : M Properties :=
  fun self =>
    (check_markup_errors properties, self, [CheckMarkupErrors properties]).

Definition call_new_feature (geometry : G) (properties : Properties)
    : M (Feature G) :=
  fun self =>
    let '(feature, fm) := new_feature (flatmap self) geometry properties in
    (feature, {| flatmap := fm; base := base self |},
     [NewFeature geometry properties feature]).

Definition call_add_features (group_name : string)
    (features : list (Feature G)) : M (option (Feature G)) :=
  fun self =>
    let '(grouped_feature, self1) := add_features group_name features self in
    (grouped_feature, self1, [AddFeatures group_name features]).

(** The chain [if 'error' in properties ... elif properties.get('exclude',
    False)]: true when one of the four [pass] branches is taken. *)
Definition dropped (properties : Properties) : bool :=
  if dict_in "error" properties then true
  else if dict_in "invisible" properties then true
  else if dict_in "path" properties then true
  else if truthy (dict_get properties "exclude" PyFalse) then true
  else false.

(** [if 'tile-layer' not in properties: properties['tile-layer'] = ...] *)
Definition default_tile_layer (properties : Properties) : Properties :=
  if dict_in "tile-layer" properties then properties
  else <["tile-layer" := FEATURES_TILE_LAYER]> properties.

(** The [else] branch of the loop body, for an element that is a shape.
    Returns what the iteration appends to [features] and the shape with the
    dictionary as the iteration leaves it. *)
Definition process_leaf (shape : Shape) : M (list (Feature G) * Shape) :=
  let! properties := call_check_markup_errors (shape_properties shape) in
  let properties := default_tile_layer properties in
  let shape' := {| shape_geometry := shape_geometry shape;
                   shape_properties := properties |} in
  if dropped properties then ret ([], shape')
  else
    let! feature := call_new_feature (shape_geometry shape) properties in
    ret ([feature], shape').

(** A [for] loop whose body appends to [features] and may update the
    element it visits. *)
Fixpoint for_each {A} (body : A -> M (list (Feature G) * A)) (items : list A)
    : M (list (Feature G) * list A) :=
  match items with
  | [] => ret ([], [])
  | item :: rest =>
      let! (appended, item') := body item in
      let! (features, rest') := for_each body rest in
      ret (appended ++ features, item' :: rest')
  end.

(** [for shape in shapes[1:]]: the slice drops the element at index 0 (the
    slice of an empty list is empty); that element stays in the list as it
    is. *)
Definition for_each_from_1 {A} (body : A -> M (list (Feature G) * A))
    (shapes : list A) : M (list (Feature G) * list A) :=
  match shapes with
  | [] => ret ([], [])
  | first :: rest =>
      let! (features, rest') := for_each body rest in
      ret (features, first :: rest')
  end.

(** [features.append(grouped_feature)] under [if grouped_feature is not
    None]. *)
Definition append_if_not_None (grouped_feature : option (Feature G))
    : list (Feature G) :=
  match grouped_feature with
  | Some feature => [feature]
  | None => []
  end.

(** One iteration of the loop of [__process_shape_list]; the [TreeList]
    case holds the recursive call (see [process_shape_TreeList]). *)
Fixpoint process_shape (shape : TreeNode) : M (list (Feature G) * TreeNode) :=
  match shape with
  | TreeList shapes =>
      let! (group_features, shapes') := for_each_from_1 process_shape shapes in
      let! grouped_feature := call_add_features "Group" group_features in
      ret (append_if_not_None grouped_feature, TreeList shapes')
  | ShapeNode leaf =>
      let! (appended, leaf') := process_leaf leaf in
      ret (appended, ShapeNode leaf')
  end.

(** [PowerpointLayer.__process_shape_list]: the returned [features] and the
    tree as the traversal leaves it. *)
Definition process_shape_list (shapes : list TreeNode)
    : M (list (Feature G) * list TreeNode) :=
  for_each_from_1 process_shape shapes.

End PowerpointModel.

Arguments Shape G : clear implicits.
Arguments TreeNode G : clear implicits.
Arguments FlatMap G : clear implicits.
Arguments PowerpointLayer G MapLayer : clear implicits.
Arguments Call G : clear implicits.

(* ===================================================================== *)
(** ** Definitions used to state the properties *)
(* ===================================================================== *)

Section Specification.
Context {G : Type} `{BaseGeometry G}.

(** The match list of one candidate layer, as the resolver computes it from
    the index. *)
Definition layer_matches (self : FeatureMap G) (anatomical_id : PyValue)
    (anatomical_layer : PyValue) : list (Feature G) :=
  included_features_of
    (dict_get (model_to_features self) anatomical_layer [])
    (dict_get (model_to_features self) anatomical_id []).

(** The resolution rule in the specification's words: the first match list
    with exactly one element, or else the last match list. *)
Definition first_unique_or_last (match_lists : list (list (Feature G)))
    : list (Feature G) :=
  match List.find (fun l => (length l =? 1)%nat) match_lists with
  | Some l => l
  | None => List.last match_lists []
  end.

(** Number of containers of a layer that contain a feature's centroid. *)
Definition containing_count (layer_features : list (Feature G))
    (feature : Feature G) : nat :=
  length
    (List.filter
       (fun layer_feature =>
          contains (geometry layer_feature) (centroid (geometry feature)))
       layer_features).

(** What a client of a [FeatureMap] can do with it between two moments of a
    build.  [unknown_anatomy] is private and written by the resolver only;
    registering a feature or mutating a registered one changes the three
    dictionaries at most. *)
Inductive Event : Type :=
| Updated
| Resolved (anatomical_id : PyValue) (anatomical_layers : list PyValue)
    (result : list (Feature G)) (logged : list LogRecord).

Inductive step : FeatureMap G -> Event -> FeatureMap G -> Prop :=
| step_update self self' :
    unknown_anatomy self' = unknown_anatomy self ->
    step self Updated self'
| step_resolve self anatomical_id anatomical_layers result self' logged :
    find_features_by_anatomical_id self anatomical_id anatomical_layers
      = (result, self', logged) ->
    step self (Resolved anatomical_id anatomical_layers result logged) self'.

(** [steps self history self']: [history] lists the events in program
    order. *)
Inductive steps (self : FeatureMap G)
    : list Event -> FeatureMap G -> Prop :=
| steps_nil : steps self [] self
| steps_snoc history self1 event self2 :
    steps self history self1 ->
    step self1 event self2 ->
    steps self (history ++ [event]) self2.

(** An earlier resolution of the same pair came back empty. *)
Definition failed_before (history : list Event) (anatomical_id : PyValue)
    (anatomical_layers : list PyValue) : Prop :=
  exists logged, In (Resolved anatomical_id anatomical_layers [] logged) history.

End Specification.

Section TreeSpecification.
Context {G : Type} `{BaseGeometry G}.

(** The shapes the reduction visits, depth first: at every level the element
    at index 0 is left out. *)
Fixpoint visited_leaves (node : TreeNode G) : list (Shape G) :=
  match node with
  | ShapeNode shape => [shape]
  | TreeList shapes =>
      match shapes with
      | [] => []
      | _ :: rest => flat_map visited_leaves rest
      end
  end.

Definition traversal (shapes : list (TreeNode G)) : list (Shape G) :=
  match shapes with
  | [] => []
  | _ :: rest => flat_map visited_leaves rest
  end.

(** The tree without the element at index 0 of each of its lists. *)
Fixpoint from_index_1_node (node : TreeNode G) : TreeNode G :=
  match node with
  | ShapeNode shape => ShapeNode shape
  | TreeList shapes =>
      TreeList
        match shapes with
        | [] => []
        | _ :: rest => map from_index_1_node rest
        end
  end.

Definition from_index_1 (shapes : list (TreeNode G)) : list (TreeNode G) :=
  match shapes with
  | [] => []
  | _ :: rest => map from_index_1_node rest
  end.

Definition is_shape (node : TreeNode G) : bool :=
  match node with
  | ShapeNode _ => true
  | TreeList _ => false
  end.

(** The Features returned by the [new_feature] calls of a call sequence. *)
Definition created (calls : list (Call G)) : list (Feature G) :=
  flat_map
    (fun call =>
       match call with
       | NewFeature _ _ feature => [feature]
       | _ => []
       end)
    calls.

Variable check_markup_errors : Properties -> Properties.
Variable FEATURES_TILE_LAYER : PyValue.

(** The dictionary of a visited shape once validated and given its tile
    layer: what the drop tests read and what [new_feature] receives. *)
Definition final_properties (shape : Shape G) : Properties :=
  default_tile_layer FEATURES_TILE_LAYER
    (check_markup_errors (shape_properties shape)).

(** The visited shapes that pass the drop tests, in traversal order. *)
Definition kept (shapes : list (Shape G)) : list (Shape G) :=
  List.filter (fun shape => negb (dropped (final_properties shape))) shapes.

(** The tree with the dictionary of every visited shape replaced by its
    final dictionary; elements at index 0 are as they were. *)
Fixpoint updated_node (node : TreeNode G) : TreeNode G :=
  match node with
  | ShapeNode shape =>
      ShapeNode {| shape_geometry := shape_geometry shape;
                   shape_properties := final_properties shape |}
  | TreeList shapes =>
      TreeList
        match shapes with
        | [] => []
        | first :: rest => first :: map updated_node rest
        end
  end.

Definition updated (shapes : list (TreeNode G)) : list (TreeNode G) :=
  match shapes with
  | [] => []
  | first :: rest => first :: map updated_node rest
  end.

(** What the four [pass] branches test, on the validated dictionary. *)
Definition drop_marked (properties : Properties) : Prop :=
  is_Some (properties !! "error")
  \/ is_Some (properties !! "invisible")
  \/ is_Some (properties !! "path")
  \/ truthy (default PyFalse (properties !! "exclude")) = true.

(** The layer after one [new_feature] call. *)
Definition after_new_feature {MapLayer : Type}
    (self : PowerpointLayer G MapLayer) (geometry : G)
    (properties : Properties) : PowerpointLayer G MapLayer :=
  {| flatmap := snd (new_feature (flatmap self) geometry properties);
     base := base self |}.

(** What the caller of a reduction step observes besides the tree: the
    appended Features, the layer and the calls. *)
Definition observable {A MapLayer : Type}
    (result : list (Feature G) * A * PowerpointLayer G MapLayer * list (Call G))
    : list (Feature G) * PowerpointLayer G MapLayer * list (Call G) :=
  (fst (fst (fst result)), snd (fst result), snd result).

(** [features] were built, one per shape and in the order of [shapes], with
    strictly increasing numeric ids taken from the range [(lo, hi]]. *)
Definition built_in_order (lo : Z) (features : list (Feature G)) (hi : Z)
    (shapes : list (Shape G)) : Prop :=
  Forall2
    (fun feature shape =>
       feature =
         Feature_init (feature_id feature) (shape_geometry shape)
           (final_properties shape) false)
    features shapes
  /\ lo <= hi
  /\ Forall (fun feature => lo < feature_id feature <= hi) features
  /\ StronglySorted Z.lt (map feature_id features).

(** Features numbered consecutively after [last_id]. *)
Fixpoint numbered (last_id : Z) (items : list (G * Properties))
    : list (Feature G) :=
  match items with
  | [] => []
  | (geometry, properties) :: rest =>
      Feature_init (last_id + 1) geometry properties false
        :: numbered (last_id + 1) rest
  end.

End TreeSpecification.

(* ===================================================================== *)
(** ** A small geometry and concrete collaborators, to run the model *)
(* ===================================================================== *)

(** Integer points and axis-parallel boxes.  A box contains the points
    strictly inside it. *)
Inductive Plane : Type :=
| PlanePoint (x y : Z)
| PlaneBox (x0 y0 x1 y1 : Z).

Definition Plane_geom_type (g : Plane) : string :=
  match g with
  | PlanePoint _ _ => "Point"
  | PlaneBox _ _ _ _ => "Polygon"
  end.

Definition Plane_centroid (g : Plane) : Plane :=
  match g with
  | PlanePoint x y => PlanePoint x y
  | PlaneBox x0 y0 x1 y1 => PlanePoint ((x0 + x1) / 2) ((y0 + y1) / 2)
  end.

Definition Plane_contains (g other : Plane) : bool :=
  match g, other with
  | PlaneBox x0 y0 x1 y1, PlanePoint x y =>
      (x0 <? x) && (x <? x1) && (y0 <? y) && (y <? y1)
  | PlaneBox x0 y0 x1 y1, PlaneBox a0 b0 a1 b1 =>
      (x0 <=? a0) && (a1 <=? x1) && (y0 <=? b0) && (b1 <=? y1)
  | PlanePoint x y, PlanePoint a b => (x =? a) && (y =? b)
  | PlanePoint _ _, PlaneBox _ _ _ _ => false
  end.

#[global] Instance Plane_geometry : BaseGeometry Plane :=
  {| geom_type := Plane_geom_type;
     centroid := Plane_centroid;
     contains := Plane_contains |}.

(** A validator that leaves the dictionary as it is, the tile layer name, and
    an aggregation step that files the features with the layer and never
    synthesises a group Feature. *)
Definition keep_properties (properties : Properties) : Properties := properties.

Definition features_tile_layer : PyValue := PyStr "features".

Definition file_features (group_name : string) (features : list (Feature Plane))
    (self : PowerpointLayer Plane (list (Feature Plane)))
    : option (Feature Plane) * PowerpointLayer Plane (list (Feature Plane)) :=
  (None, {| flatmap := flatmap self; base := base self ++ features |}).

Definition empty_layer : PowerpointLayer Plane (list (Feature Plane)) :=
  {| flatmap := {| last_feature_id := 0; feature_map := FeatureMap_init |};
     base := [] |}.

Definition run_process_shape_list (shapes : list (TreeNode Plane)) :=
  process_shape_list keep_properties features_tile_layer file_features
    shapes empty_layer.

(** An index with two nerves, one ganglion and three candidate layers: the
    body contains both nerves, the organ one of them, and the two regions
    overlap around the ganglion. *)
Definition nerve_1 : Feature Plane :=
  Feature_init 1 (PlanePoint 1 1)
    (<["id" := PyStr "n1"]> {["models" := PyStr "nerve"]}) false.

Definition nerve_2 : Feature Plane :=
  Feature_init 2 (PlanePoint 5 5)
    (<["id" := PyStr "n2"]> {["models" := PyStr "nerve"]}) false.

Definition ganglion : Feature Plane :=
  Feature_init 3 (PlanePoint 2 2) {["models" := PyStr "ganglion"]} false.

Definition body : Feature Plane :=
  Feature_init 4 (PlaneBox 0 0 10 10) {["models" := PyStr "body"]} false.

Definition organ : Feature Plane :=
  Feature_init 5 (PlaneBox 0 0 3 3) {["models" := PyStr "organ"]} false.

Definition region_1 : Feature Plane :=
  Feature_init 6 (PlaneBox 0 0 3 3) {["models" := PyStr "region"]} false.

Definition region_2 : Feature Plane :=
  Feature_init 7 (PlaneBox 1 1 4 4) {["models" := PyStr "region"]} false.

Definition example_index : FeatureMap Plane :=
  fold_left add_feature
    [nerve_1; nerve_2; ganglion; body; organ; region_1; region_2]
    FeatureMap_init.

(** The fresh index after one failed resolution of [("cortex", ["body"])]. *)
Definition index_after_failure : FeatureMap Plane :=
  {| class_to_features := ∅;
     id_to_feature := ∅;
     model_to_features := ∅;
     unknown_anatomy := [(PyStr "cortex", [PyStr "body"])] |}.

(** Shapes: three plain ones, an invisible one and an excluded one. *)
Definition plain_shape (x : Z) : Shape Plane :=
  {| shape_geometry := PlanePoint x x;
     shape_properties := {["shape-id" := PyInt x]} |}.

Definition invisible_shape : Shape Plane :=
  {| shape_geometry := PlanePoint 8 8;
     shape_properties := {["invisible" := PyTrue]} |}.

Definition excluded_shape : Shape Plane :=
  {| shape_geometry := PlanePoint 9 9;
     shape_properties := {["exclude" := PyTrue]} |}.

(* ===================================================================== *)
(** ** [update_label] *)
(* ===================================================================== *)

Section UpdateLabel.
Context {G : Type}.

(** Two built-ins whose results on text are not computed here: [str.lower]
    and the [str()] an f-string applies to a value that is not a string. *)
Variable lower : string -> string.
Variable str_of : PyValue -> string.

(** [v.lower()]: only strings have the method ([AttributeError]
    otherwise). *)
Definition py_lower (v : PyValue) : option string :=
  match v with
  | PyStr s => Some (lower s)
  | _ => None
  end.

(** [v += suffix] with a string suffix: [TypeError] unless [v] is a
    string. *)
Definition py_iadd_str (v : PyValue) (suffix : string) : option PyValue :=
  match v with
  | PyStr s => Some (PyStr (s +:+ suffix))
  | _ => None
  end.

(** [f'{v}']: a string is interpolated as it is. *)
Definition format_value (v : PyValue) : string :=
  match v with
  | PyStr s => s
  | _ => str_of v
  end.

Definition newline : string := String (Ascii.ascii_of_nat 10) EmptyString.

(** [update_label(feature)]: [None] stands for a raised exception.  The
    dictionary is [feature.properties], updated in place. *)
Definition update_label (feature : Feature G) : option (Feature G) :=
  let with_properties (properties : Properties) : Feature G :=
    {| feature_id := feature_id feature;
       geometry := geometry feature;
       properties := properties;
       has_children := has_children feature |} in
  let properties1 :=
    if is_None (dict_get (properties feature) "label" PyNone)
    then <["label" := PyStr ""]> (properties feature)
    else properties feature in
  let label1 := dict_get properties1 "label" PyNone in
  let name0 := dict_get properties1 "name" (PyStr "") in
  name ←
    (if py_ne name0 (PyStr "")
     then
       name_lower ← py_lower name0;
       label_lower ← py_lower label1;
       Some (if String.eqb name_lower label_lower then PyStr "" else name0)
     else Some name0);
  let feature_models := dict_get properties1 "models" PyNone in
  properties2 ←
    (if truthy feature_models && py_ne label1 (PyStr "")
     then
       label2 ← py_iadd_str label1
                  (" (" +:+ format_value feature_models +:+ ")");
       Some (<["label" := label2]> properties1)
     else Some properties1);
  properties3 ←
    (if py_ne name (PyStr "") && py_ne name PyNone
     then
       label3 ← py_iadd_str (dict_get properties2 "label" PyNone)
                  (newline +:+ format_value name);
       Some (<["label" := label3]> properties2)
     else Some properties2);
  Some (with_properties properties3).

End UpdateLabel.

(* ===================================================================== *)
(** ** [PowerpointLayer.__init__] and [PowerpointSource.process] *)
(* ===================================================================== *)

(** [seq[index]] on a Python list: a negative index counts from the end,
    [None] stands for [IndexError]. *)
Definition py_index {A} (items : list A) (index : Z) : option A :=
  if index <? 0
  then
    if index + Z.of_nat (length items) <? 0 then None
    else items !! Z.to_nat (index + Z.of_nat (length items))
  else items !! Z.to_nat index.

(** A slide as the source reads it: [slide.id] and the XML of its
    [pptx_slide]. *)
Record Slide : Type := mkSlide {
  slide_id : string;
  slide_xml : string
}.

(** The fields of a [PowerpointSource] that [process] reads; of the shape
    filter only whether it is [None]. *)
Record PowerpointSource : Type := mkPowerpointSource {
  source_id : string;
  source_kind : string;
  source_range : option (list Z);
  source_slides : list Slide;
  source_has_shape_filter : bool
}.

(** What the constructor of a slide's layer fixes: the id and the
    [exported] flag handed to [MapLayer.__init__], the slide and its
    number. *)
Record SlideLayer : Type := mkSlideLayer {
  layer_id : string;
  layer_exported : bool;
  layer_slide : Slide;
  layer_slide_number : Z
}.

(** [PowerpointLayer.__init__]; [source.source_range[0]] raises on an empty
    range. *)
Definition PowerpointLayer_init (source : PowerpointSource) (id : string)
    (slide : Slide) (slide_number : Z) : option SlideLayer :=
  exported ←
    match source_range source with
    | None => Some (slide_number =? 1)
    | Some range => first ← py_index range 0; Some (slide_number =? first)
    end;
  Some {| layer_id := id;
          layer_exported := exported;
          layer_slide := slide;
          layer_slide_number := slide_number |}.

(** What [PowerpointSource.process] does besides building layers, in program
    order. *)
Inductive SourceEvent : Type :=
| LogSlide (slide_number : Z) (id : string)
| SaveDrawML (id : string) (xml : string)
| ProcessLayer (layer : SlideLayer)
| AddLayer (layer : SlideLayer)
| CreateFilter.

(** [range(1, len(self.__slides)+1)] or the given range. *)
Definition slide_numbers (self : PowerpointSource) : list Z :=
  match source_range self with
  | None => map Z.of_nat (seq 1 (length (source_slides self)))
  | Some range => range
  end.

(** One iteration of the loop of [process]; [save_drawml] is
    [settings.get('saveDrawML')]. *)
Definition process_slide (save_drawml : bool) (self : PowerpointSource)
    (slide_number : Z) : option (list SourceEvent) :=
  if (slide_number <? 1)
     || (Z.of_nat (length (source_slides self)) + 1 <=? slide_number)
  then Some []
  else
    slide ← py_index (source_slides self) (slide_number - 1);
    let id :=
      if (slide_number =? 1)
         && (length (slide_numbers self) =? 1)%nat
      then source_id self
      else source_id self +:+ "/" +:+ slide_id slide in
    slide_layer ← PowerpointLayer_init self id slide slide_number;
    Some ([LogSlide slide_number (layer_id slide_layer)]
          ++ (if save_drawml
              then [SaveDrawML (layer_id slide_layer) (slide_xml slide)]
              else [])
          ++ [ProcessLayer slide_layer; AddLayer slide_layer]).

Fixpoint process_slides (save_drawml : bool) (self : PowerpointSource)
    (numbers : list Z) : option (list SourceEvent) :=
  match numbers with
  | [] => Some []
  | slide_number :: rest =>
      events ← process_slide save_drawml self slide_number;
      later ← process_slides save_drawml self rest;
      Some (events ++ later)
  end.

(** [PowerpointSource.process]; [None] stands for a raised exception. *)
Definition PowerpointSource_process (save_drawml : bool)
    (self : PowerpointSource) : option (list SourceEvent) :=
  events ← process_slides save_drawml self (slide_numbers self);
  Some (events
        ++ (if String.eqb (source_kind self) "base"
               && source_has_shape_filter self
            then [CreateFilter]
            else [])).

(** The layers handed to [add_layer], in order. *)
Definition added_layers (events : list SourceEvent) : list SlideLayer :=
  flat_map
    (fun event =>
       match event with
       | AddLayer layer => [layer]
       | _ => []
       end)
    events.

(** A slide number that denotes a slide of the presentation. *)
Definition in_presentation (self : PowerpointSource) (slide_number : Z) : bool :=
  (1 <=? slide_number)
  && (slide_number <=? Z.of_nat (length (source_slides self))).

(** The layer [process] builds for slide number [n]. *)
Definition layer_for (self : PowerpointSource) (layer : SlideLayer) (n : Z)
    : Prop :=
  layer_slide_number layer = n
  /\ source_slides self !! Z.to_nat (n - 1) = Some (layer_slide layer)
  /\ layer_exported layer = (n =? hd 1 (slide_numbers self))
  /\ layer_id layer =
       if (n =? 1) && (length (slide_numbers self) =? 1)%nat
       then source_id self
       else source_id self +:+ "/" +:+ slide_id (layer_slide layer).

(* ===================================================================== *)
(** ** [DeGrouper.__process_element] *)
(* ===================================================================== *)

(** An lxml tree of elements and comments.  [len(element)] and iteration
    over an element count comments among the children. *)
#[warnings="-register-all"]
Inductive XmlNode : Type :=
| XmlComment (text : string) (tail : option string)
| XmlElement (tag : string) (attrib : list (string * string))
    (text tail : option string) (children : list XmlNode).

(** An element under construction: the [output] of the traversal. *)
Record XmlOutput : Type := mkXmlOutput {
  out_tag : string;
  out_attrib : list (string * string);
  out_text : option string;
  out_tail : option string;
  out_children : list XmlNode
}.

Definition XmlOutput_node (output : XmlOutput) : XmlNode :=
  XmlElement (out_tag output) (out_attrib output) (out_text output)
    (out_tail output) (out_children output).

Definition SVG_NS : string := "http://www.w3.org/2000/svg".
Definition SVG_GROUP : string := "{" +:+ SVG_NS +:+ "}g".

(** [element.tag != SVG_GROUP or len(element.attrib) > 0 or
    len(element) > 1] *)
Definition makes_subelement (tag : string) (attrib : list (string * string))
    (children : list XmlNode) : bool :=
  negb (String.eqb tag SVG_GROUP)
  || (0 <? length attrib)%nat
  || (1 <? length children)%nat.

(** [etree.SubElement(output, ...)] once the new element is complete: it is
    the last child of [output]. *)
Definition append_subelement (output sub : XmlOutput) : XmlOutput :=
  {| out_tag := out_tag output;
     out_attrib := out_attrib output;
     out_text := out_text output;
     out_tail := out_tail output;
     out_children := out_children output ++ [XmlOutput_node sub] |}.

(** [__process_element(element, output)] for an [output] that is not
    [None]: what the call does to that element.  A sub-element is created
    as the last child and the children go into it; otherwise the children
    go into [output] itself.  Text and tail are copied to a sub-element
    only. *)
Fixpoint process_element_into (element : XmlNode) (output : XmlOutput)
    : XmlOutput :=
  match element with
  | XmlComment _ _ => output
  | XmlElement tag attrib text tail children =>
      if makes_subelement tag attrib children
      then
        append_subelement output
          (fold_left (fun out child => process_element_into child out)
             children
             {| out_tag := tag; out_attrib := attrib; out_text := text;
                out_tail := tail; out_children := [] |})
      else
        fold_left (fun out child => process_element_into child out)
          children output
  end.

(** The parameters of [etree.Element(_tag, attrib=None, nsmap=None,
    **_extra)].  The root is built by
    [etree.Element(element.tag, **element.attrib, nsmap=NAMESPACE_MAP)], so
    an attribute of the root that has one of these names is taken for the
    parameter and the call raises [TypeError]. *)
Definition Element_parameters : list string := ["_tag"; "attrib"; "nsmap"].

Definition clashes_with_parameters (attrib : list (string * string)) : bool :=
  existsb (fun item => bool_decide (fst item ∈ Element_parameters)) attrib.

(** [__process_element(element)] with [output=None], as [degroup] calls it
    on the root: the element returned.  [None] stands for no element: the
    call returns [None] for a comment, and raises [TypeError] for an element
    with an attribute named like a parameter of [etree.Element]. *)
Definition process_element (element : XmlNode) : option XmlOutput :=
  match element with
  | XmlComment _ _ => None
  | XmlElement tag attrib _ _ children =>
      if clashes_with_parameters attrib then None
      else
        Some
          (fold_left (fun out child => process_element_into child out)
             children
             {| out_tag := tag; out_attrib := attrib; out_text := None;
                out_tail := None; out_children := [] |})
  end.

(* ===================================================================== *)
(** ** The zoom checks of [main] *)
(* ===================================================================== *)

(** The three [sys.exit] messages, as the numbers they format. *)
Inductive ZoomExit : Type :=
| MinZoomExit (max_zoom : Z)
| MaxZoomExit (min_zoom : Z)
| InitialZoomExit (min_zoom max_zoom : Z).

(** Lines 81-88 of [main]: the first failing test exits; otherwise
    [map_zoom] is the triple. *)
Definition main_map_zoom (min_zoom max_zoom initial_zoom : Z)
    : ZoomExit + Z * Z * Z :=
  if (min_zoom <? 0) || (max_zoom <? min_zoom)
  then inl (MinZoomExit max_zoom)
  else if (max_zoom <? min_zoom) || (15 <? max_zoom)
  then inl (MaxZoomExit min_zoom)
  else if (initial_zoom <? min_zoom) || (max_zoom <? initial_zoom)
  then inl (InitialZoomExit min_zoom max_zoom)
  else inr (min_zoom, max_zoom, initial_zoom).

(* ===================================================================== *)
(** ** Further definitions used to state properties *)
(* ===================================================================== *)

Section FurtherSpecification.
Context {G : Type} `{BaseGeometry G}.

(** The last feature of a registration sequence that carries an id. *)
Definition last_with_id (id0 : PyValue) (registered : list (Feature G))
    : option (Feature G) :=
  List.find (fun f => bool_decide (id f = id0)) (rev registered).

(** The dictionaries handed to the markup validator, in call order. *)
Definition validated (calls : list (Call G)) : list Properties :=
  flat_map
    (fun call =>
       match call with
       | CheckMarkupErrors properties => [properties]
       | _ => []
       end)
    calls.

(** The group names handed to the aggregation step, in call order. *)
Definition group_names (calls : list (Call G)) : list string :=
  flat_map
    (fun call =>
       match call with
       | AddFeatures group_name _ => [group_name]
       | _ => []
       end)
    calls.

(** Number of nested lists the reduction visits. *)
Fixpoint visited_groups (node : TreeNode G) : nat :=
  match node with
  | ShapeNode _ => 0
  | TreeList shapes =>
      S match shapes with
        | [] => 0
        | _ :: rest => list_sum (map visited_groups rest)
        end
  end.

(** The text of [label] and of [name] when they are absent or strings;
    [label] may also be bound to [None]. *)
Definition label_text (feature : Feature G) : option string :=
  match properties feature !! "label" with
  | None | Some PyNone => Some EmptyString
  | Some (PyStr s) => Some s
  | Some (PyInt _) => None
  end.

Definition name_text (feature : Feature G) : option string :=
  match properties feature !! "name" with
  | None => Some EmptyString
  | Some (PyStr s) => Some s
  | Some _ => None
  end.

End FurtherSpecification.

(** Whether a tree holds a comment. *)
Fixpoint has_comment (node : XmlNode) : bool :=
  match node with
  | XmlComment _ _ => true
  | XmlElement _ _ _ _ children => existsb has_comment children
  end.

(** The elements of a tree in document order, each with its tag,
    attributes, text and tail. *)
Fixpoint elements_of (node : XmlNode)
    : list (string * list (string * string) * option string * option string) :=
  match node with
  | XmlComment _ _ => []
  | XmlElement tag attrib text tail children =>
      (tag, attrib, text, tail) :: flat_map elements_of children
  end.

(** The elements of a tree, in document order, for which the traversal makes
    a sub-element. *)
Fixpoint subelements_of (node : XmlNode)
    : list (string * list (string * string) * option string * option string) :=
  match node with
  | XmlComment _ _ => []
  | XmlElement tag attrib text tail children =>
      (if makes_subelement tag attrib children
       then [(tag, attrib, text, tail)]
       else [])
      ++ flat_map subelements_of children
  end.

(** An output with further nodes after its children. *)
Definition add_children (output : XmlOutput) (nodes : list XmlNode)
    : XmlOutput :=
  {| out_tag := out_tag output;
     out_attrib := out_attrib output;
     out_text := out_text output;
     out_tail := out_tail output;
     out_children := out_children output ++ nodes |}.

(** What the traversal makes of an element, as a list of finished nodes: the
    sub-element with what its children give, or just what the children
    give. *)
Fixpoint degrouped (element : XmlNode) : list XmlNode :=
  match element with
  | XmlComment _ _ => []
  | XmlElement tag attrib text tail children =>
      if makes_subelement tag attrib children
      then [XmlElement tag attrib text tail (flat_map degrouped children)]
      else flat_map degrouped children
  end.

(** A tree in which the traversal finds nothing to leave out: no comment and
    no element for which no sub-element is made. *)
Fixpoint kept_whole (node : XmlNode) : bool :=
  match node with
  | XmlComment _ _ => false
  | XmlElement tag attrib _ _ children =>
      makes_subelement tag attrib children && forallb kept_whole children
  end.

(** A feature with a label, a model and a name that repeats the label in
    another case, and one whose name is [None]. *)
Definition heart : Feature Plane :=
  Feature_init 8 (PlanePoint 0 0)
    (<["label" := PyStr "Heart"]>
       (<["models" := PyStr "UBERON:0000948"]> {["name" := PyStr "heart"]}))
    false.

Definition nameless : Feature Plane :=
  Feature_init 9 (PlanePoint 0 0) {["name" := PyNone]} false.

(** A stand-in for [str.lower] that maps two given spellings to one. *)
Definition lower_heart (s : string) : string :=
  if String.eqb s "Heart" then "heart" else s.

(** A presentation of two slides of which slides 3 and 1 are requested, in
    that order. *)
Definition two_slides : PowerpointSource :=
  {| source_id := "rat";
     source_kind := "base";
     source_range := Some [3; 1];
     source_slides :=
       [ {| slide_id := "slide-01"; slide_xml := "<p:sld/>" |};
         {| slide_id := "slide-02"; slide_xml := "<p:sld/>" |} ];
     source_has_shape_filter := true |}.

(** An SVG root holding a bare group around one path and a comment beside
    it, and one holding two paths. *)
Definition svg_path (name : string) : XmlNode :=
  XmlElement "{http://www.w3.org/2000/svg}path" [("id", name)] None None [].

Definition svg_with_group : XmlNode :=
  XmlElement "{http://www.w3.org/2000/svg}svg" [("viewBox", "0 0 10 10")]
    None None
    [ XmlElement "{http://www.w3.org/2000/svg}g" [] None None [svg_path "a"];
      XmlComment "made by hand" None ].

Definition svg_plain : XmlNode :=
  XmlElement "{http://www.w3.org/2000/svg}svg" [("viewBox", "0 0 10 10")]
    None None
    [svg_path "a"; svg_path "b"].

(* ===================================================================== *)
(** ** Properties of [Feature] and of the [FeatureMap] lookups *)
(* ===================================================================== *)

Section FeatureProperties.
Context {G : Type} `{BaseGeometry G}.
Implicit Types (f g : Feature G) (fm : FeatureMap G) (k : string).

Lemma has_property_lookup f k :
  has_property f k = true <->
  exists v, properties f !! k = Some v /\ v <> PyStr "".
Proof.
  unfold has_property, py_ne, dict_get.
  destruct (properties f !! k) as [v|]; cbn [default].
  - rewrite negb_true_iff, bool_decide_eq_false.
    split; [eauto | by intros (w & [= ->] & Hw)].
  - split; [discriminate | by intros (w & [=] & _)].
Qed.

Lemma del_property_lookup f k :
  properties (snd (del_property f k)) = delete k (properties f).
Proof.
  unfold del_property.
  destruct (properties f !! k) eqn:E; simpl; [done|].
  by rewrite delete_id.
Qed.

(** C4, as the code has it: [set_property] with [None] is [del_property]:
    the key is gone and [has_property] answers false.  With the empty string
    the key stays, bound to the empty string (so a [get_property] with a
    default returns the empty string, not the default); [has_property]
    answers false there too. *)
Theorem set_property_None_deletes f k :
  set_property f k PyNone = snd (del_property f k)
  /\ properties (set_property f k PyNone) = delete k (properties f)
  /\ properties (set_property f k PyNone) !! k = None
  /\ has_property (set_property f k PyNone) k = false
  /\ properties (set_property f k (PyStr "")) !! k = Some (PyStr "")
  /\ has_property (set_property f k (PyStr "")) k = false.
Proof.
  assert (E : set_property f k PyNone = snd (del_property f k)) by done.
  rewrite E, del_property_lookup.
  repeat split.
  - apply lookup_delete_eq.
  - unfold has_property, dict_get.
    by rewrite del_property_lookup, lookup_delete_eq.
  - simpl. apply lookup_insert_eq.
  - unfold has_property, dict_get. simpl. by rewrite lookup_insert_eq.
Qed.

Lemma add_feature_id_to_feature fm f :
  id_to_feature (add_feature fm f) =
    if is_None (id f) then id_to_feature fm
    else <[id f := f]> (id_to_feature fm).
Proof. done. Qed.

Lemma add_feature_unknown_anatomy fm f :
  unknown_anatomy (add_feature fm f) = unknown_anatomy fm.
Proof. done. Qed.

(** Registering a feature is an [Updated] event. *)
Lemma add_feature_step fm f : step fm Updated (add_feature fm f).
Proof. constructor. apply add_feature_unknown_anatomy. Qed.

Lemma is_None_false (v : PyValue) : v <> PyNone -> is_None v = false.
Proof. by destruct v. Qed.

Lemma later_registrations_keep_id fm f (later : list (Feature G)) :
  id_to_feature fm !! id f = Some f ->
  Forall (fun g => id g <> id f) later ->
  id_to_feature (fold_left add_feature later fm) !! id f = Some f.
Proof.
  revert fm. induction later as [|g later IH]; intros fm Hf Hl; [done|].
  inversion Hl as [|? ? Hg Hl']; subst. simpl. apply IH; [|done].
  rewrite add_feature_id_to_feature.
  destruct (is_None (id g)); [done|]. by rewrite lookup_insert_ne.
Qed.

(** C5: [features] answers with the one [id_to_feature] entry when the
    identifier is a key there, and with the [class_to_features] list (empty
    when missing) otherwise.  A feature registered with an id other than
    [None] is what [features] returns for that id, right after the
    registration and after any later registrations under other ids. *)
Theorem features_by_id_or_class fm (s : PyValue) :
  (forall f, id_to_feature fm !! s = Some f -> features fm s = [f])
  /\ (id_to_feature fm !! s = None ->
      features fm s = default [] (class_to_features fm !! s))
  /\ (forall f (later : list (Feature G)),
        id f = s -> s <> PyNone ->
        Forall (fun g => id g <> id f) later ->
        features (add_feature fm f) s = [f]
        /\ features (fold_left add_feature later (add_feature fm f)) s = [f]).
Proof.
  unfold features. repeat split.
  - by intros f ->.
  - by intros ->.
  - subst s. by rewrite add_feature_id_to_feature, is_None_false, lookup_insert_eq.
  - subst s. rewrite later_registrations_keep_id; [done| |done].
    by rewrite add_feature_id_to_feature, is_None_false, lookup_insert_eq.
Qed.

(** C2: with no candidate layers the resolver returns the
    [model_to_features] entry of the identifier as it is, the empty list when
    the identifier is not a key. *)
Theorem find_features_no_layers fm (anatomical_id : PyValue) :
  fst (fst (find_features_by_anatomical_id fm anatomical_id [])) =
    default [] (model_to_features fm !! anatomical_id).
Proof.
  unfold find_features_by_anatomical_id, dict_get. simpl.
  repeat case_match; done.
Qed.

(* --------------------------------------------------------------------- *)
(** *** Layered resolution *)

Lemma find_features_result fm (anatomical_id : PyValue)
    (anatomical_layers : list PyValue) :
  fst (fst (find_features_by_anatomical_id fm anatomical_id anatomical_layers)) =
    if (length anatomical_layers =? 0)%nat
    then dict_get (model_to_features fm) anatomical_id []
    else layers_loop fm (dict_get (model_to_features fm) anatomical_id [])
           anatomical_layers [].
Proof.
  unfold find_features_by_anatomical_id.
  destruct (length anatomical_layers =? 0)%nat;
    repeat case_match; done.
Qed.

Lemma last_nonempty {A} (l : list A) (d d' : A) :
  l <> [] -> List.last l d = List.last l d'.
Proof.
  induction l as [|a [|b l] IH]; intros Hl; [done|done|].
  change (List.last (b :: l) d = List.last (b :: l) d'). by apply IH.
Qed.

Lemma layers_loop_spec fm (candidates : list (Feature G))
    (layers : list PyValue) (acc : list (Feature G)) :
  let match_lists :=
    map (fun layer =>
           included_features_of (dict_get (model_to_features fm) layer [])
             candidates) layers in
  layers_loop fm candidates layers acc =
    match List.find (fun l => (length l =? 1)%nat) match_lists with
    | Some l => l
    | None => List.last match_lists acc
    end.
Proof.
  revert acc. induction layers as [|layer rest IH]; intros acc; [done|].
  cbn [layers_loop map List.find].
  destruct (length _ =? 1)%nat eqn:E; [done|].
  rewrite IH. cbn zeta.
  destruct (List.find _ _); [done|].
  destruct rest as [|layer' rest]; [done|].
  cbn [map].
  etransitivity; [apply (last_nonempty _ _ acc); done | reflexivity].
Qed.

Lemma last_map_nonempty {A B} (h : A -> B) (l : list A) (d : A) (e : B) :
  l <> [] -> List.last (map h l) e = h (List.last l d).
Proof.
  induction l as [|a [|b l] IH]; intros Hl; [done|done|].
  change (List.last (map h (b :: l)) e = h (List.last (b :: l) d)).
  by apply IH.
Qed.

Lemma find_none_of_Forall {A} (p : A -> bool) (l : list A) :
  Forall (fun x => p x = false) l -> List.find p l = None.
Proof. induction 1 as [|x l Hx _ IH]; [done|]. simpl. by rewrite Hx. Qed.

Lemma find_app_first {A} (p : A -> bool) (before : list A) (x : A)
    (after : list A) :
  Forall (fun y => p y = false) before -> p x = true ->
  List.find p (before ++ x :: after) = Some x.
Proof.
  induction 1 as [|y l Hy _ IH]; intros Hx; simpl.
  - by rewrite Hx.
  - rewrite Hy. by apply IH.
Qed.

Lemma included_features_of_In (containers candidates : list (Feature G)) f :
  In f (included_features_of containers candidates) <->
  In f candidates /\
  exists c, In c containers /\
            contains (geometry c) (centroid (geometry f)) = true.
Proof.
  unfold included_features_of. rewrite in_flat_map. split.
  - intros (c & Hc & Hf). apply filter_In in Hf as [Hf Hcf]. eauto.
  - intros (Hf & c & Hc & Hcf). exists c. split; [done|].
    apply filter_In. eauto.
Qed.

(** C1: with a non-empty list of candidate layers the resolver returns the
    match list of the first layer, in the order given, whose match list has
    exactly one element, whatever layers follow it; when no layer has such a
    match list it returns the match list of the last layer.  The members of
    a layer's match list are the candidates whose centroid some container of
    the layer contains. *)
Theorem find_features_first_unique_or_last fm (anatomical_id : PyValue)
    (anatomical_layers : list PyValue) :
  anatomical_layers <> [] ->
  let result :=
    fst (fst (find_features_by_anatomical_id fm anatomical_id
                anatomical_layers)) in
  result =
    first_unique_or_last (map (layer_matches fm anatomical_id) anatomical_layers)
  /\ (forall layer f,
        In f (layer_matches fm anatomical_id layer) <->
        In f (default [] (model_to_features fm !! anatomical_id)) /\
        exists c, In c (default [] (model_to_features fm !! layer)) /\
                  contains (geometry c) (centroid (geometry f)) = true)
  /\ (forall before layer after,
        anatomical_layers = before ++ layer :: after ->
        Forall (fun l => length (layer_matches fm anatomical_id l) <> 1%nat)
          before ->
        length (layer_matches fm anatomical_id layer) = 1%nat ->
        result = layer_matches fm anatomical_id layer)
  /\ (Forall (fun l => length (layer_matches fm anatomical_id l) <> 1%nat)
        anatomical_layers ->
      result = layer_matches fm anatomical_id (List.last anatomical_layers PyNone)).
Proof.
  intros Hne result.
  assert (Hres : result =
    first_unique_or_last (map (layer_matches fm anatomical_id) anatomical_layers)).
  { subst result. rewrite find_features_result.
    destruct anatomical_layers as [|l0 ls]; [done|].
    change (length (l0 :: ls) =? 0)%nat with false. cbn match.
    rewrite layers_loop_spec. cbn zeta. unfold first_unique_or_last.
    fold (layer_matches fm anatomical_id).
    destruct (List.find _ _); [done|].
    apply last_nonempty. done. }
  split; [exact Hres|]. split; [|split].
  - intros layer f. apply included_features_of_In.
  - intros before layer after -> Hbefore Hlayer.
    rewrite Hres. unfold first_unique_or_last.
    rewrite map_app, map_cons.
    rewrite find_app_first; [done| |by apply Nat.eqb_eq].
    apply Forall_map. eapply Forall_impl; [exact Hbefore|].
    intros l Hl. by apply Nat.eqb_neq.
  - intros Hall. rewrite Hres. unfold first_unique_or_last.
    rewrite find_none_of_Forall.
    + by apply last_map_nonempty.
    + apply Forall_map. eapply Forall_impl; [exact Hall|].
      intros l Hl. by apply Nat.eqb_neq.
Qed.

Lemma filter_then_repeats {A} (p : A -> bool) (n : A -> nat) (l : list A) :
  Permutation
    (List.filter p l ++ flat_map (fun x => repeat x (n x)) l)
    (flat_map (fun x => repeat x ((if p x then 1 else 0) + n x)%nat) l).
Proof.
  induction l as [|a l IH]; [done|].
  cbn [List.filter flat_map]. destruct (p a).
  - cbn [app Nat.add repeat]. constructor.
    rewrite <- IH, !app_assoc.
    apply Permutation_app_tail, Permutation_app_comm.
  - cbn [Nat.add]. rewrite <- IH, !app_assoc.
    apply Permutation_app_tail, Permutation_app_comm.
Qed.

Lemma included_features_of_multiplicity (containers candidates : list (Feature G)) :
  Permutation
    (included_features_of containers candidates)
    (flat_map (fun f => repeat f (containing_count containers f)) candidates).
Proof.
  induction containers as [|c containers IH].
  - cbn. induction candidates as [|f l IHl]; [done|]. by cbn.
  - unfold included_features_of, containing_count in *.
    cbn [flat_map]. rewrite IH.
    rewrite filter_then_repeats.
    apply Permutation_refl'. apply flat_map_ext. intros f.
    cbn [List.filter]. by destruct (contains _ _).
Qed.

Lemma layers_loop_acc fm (candidates : list (Feature G))
    (layers : list PyValue) (acc acc' : list (Feature G)) :
  layers <> [] ->
  layers_loop fm candidates layers acc = layers_loop fm candidates layers acc'.
Proof. by destruct layers. Qed.

(** C10: a layer's match list holds every candidate once per container, of
    that layer, that contains its centroid.  So a single candidate lying in
    two containers gives a match list of length two with the candidate twice;
    the loop does not stop at that layer, and when it is the last layer the
    resolver returns the candidate twice. *)
Theorem match_list_repeats_candidates fm (anatomical_id layer : PyValue)
    (f c1 c2 : Feature G) (rest : list PyValue) :
  model_to_features fm !! anatomical_id = Some [f] ->
  model_to_features fm !! layer = Some [c1; c2] ->
  contains (geometry c1) (centroid (geometry f)) = true ->
  contains (geometry c2) (centroid (geometry f)) = true ->
  (forall containers candidates : list (Feature G),
     Permutation
       (included_features_of containers candidates)
       (flat_map (fun f => repeat f (containing_count containers f)) candidates))
  /\ containing_count [c1; c2] f = 2%nat
  /\ layer_matches fm anatomical_id layer = [f; f]
  /\ fst (fst (find_features_by_anatomical_id fm anatomical_id [layer])) = [f; f]
  /\ (rest <> [] ->
      fst (fst (find_features_by_anatomical_id fm anatomical_id (layer :: rest)))
      = fst (fst (find_features_by_anatomical_id fm anatomical_id rest))).
Proof.
  intros Hid Hlayer Hc1 Hc2.
  assert (Hm : layer_matches fm anatomical_id layer = [f; f]).
  { unfold layer_matches, dict_get. rewrite Hid, Hlayer.
    cbn. by rewrite Hc1, Hc2. }
  split; [apply included_features_of_multiplicity|].
  split; [unfold containing_count; cbn; by rewrite Hc1, Hc2|].
  split; [exact Hm|].
  unfold layer_matches in Hm. split.
  - rewrite find_features_result. cbn. by rewrite Hm.
  - intros Hrest. rewrite !find_features_result.
    destruct rest as [|l0 ls]; [done|].
    set (ls' := l0 :: ls) in *.
    change (length (layer :: ls') =? 0)%nat with false.
    replace (length ls' =? 0)%nat with false by done.
    cbn [layers_loop]. rewrite Hm. cbn [length Nat.eqb].
    by apply layers_loop_acc.
Qed.

(* --------------------------------------------------------------------- *)
(** *** The diagnostic of an empty resolution *)

Lemma find_features_cases fm (anatomical_id : PyValue)
    (anatomical_layers : list PyValue) (result : list (Feature G))
    (fm' : FeatureMap G) (logged : list LogRecord) :
  find_features_by_anatomical_id fm anatomical_id anatomical_layers
    = (result, fm', logged) ->
  (result <> [] /\ fm' = fm /\ logged = [])
  \/ (result = [] /\ ((anatomical_id, anatomical_layers) ∈ unknown_anatomy fm)
      /\ fm' = fm /\ logged = [])
  \/ (result = [] /\ ((anatomical_id, anatomical_layers) ∉ unknown_anatomy fm)
      /\ unknown_anatomy fm' =
           unknown_anatomy fm ++ [(anatomical_id, anatomical_layers)]
      /\ logged =
           [if (length anatomical_layers =? 0)%nat
            then CannotFind anatomical_id
            else CannotFindInLayers anatomical_id anatomical_layers]).
Proof.
  unfold find_features_by_anatomical_id.
  set (r := if (length anatomical_layers =? 0)%nat then _ else _).
  destruct (length r =? 0)%nat eqn:Er.
  - apply Nat.eqb_eq, nil_length_inv in Er.
    case_bool_decide as Hin; intros [= <- <- <-].
    + right; left. done.
    + right; right. done.
  - intros [= <- <- <-]. left. split; [|done].
    intros Hr. by rewrite Hr in Er.
Qed.

Lemma failed_before_snoc (history : list (Event (G:=G))) (event : Event)
    (anatomical_id : PyValue) (anatomical_layers : list PyValue) :
  failed_before (history ++ [event]) anatomical_id anatomical_layers <->
  failed_before history anatomical_id anatomical_layers
  \/ exists logged, event = Resolved anatomical_id anatomical_layers [] logged.
Proof.
  unfold failed_before. split.
  - intros (logged & Hin). apply in_app_or in Hin as [Hin|[Hin|[]]]; eauto.
  - intros [(logged & Hin)|(logged & ->)]; exists logged;
      apply in_or_app; [by left | right; by left].
Qed.

(** From a fresh index, [unknown_anatomy] holds exactly the pairs whose
    resolution has come back empty before. *)
Lemma unknown_anatomy_history fm (history : list Event) :
  steps FeatureMap_init history fm ->
  forall anatomical_id anatomical_layers,
    (anatomical_id, anatomical_layers) ∈ unknown_anatomy fm <->
    failed_before history anatomical_id anatomical_layers.
Proof.
  induction 1 as [|history fm1 event fm2 Hsteps IH Hstep];
    intros anatomical_id anatomical_layers.
  - split; [by intros ?%elem_of_nil | by intros (? & [])].
  - rewrite failed_before_snoc, <- IH. clear IH Hsteps.
    destruct Hstep as [fm1 fm2 Hsame | fm1 aid layers result fm2 logged Hfind].
    + rewrite Hsame. split; [by left | by intros [?|(? & [=])]].
    + apply find_features_cases in Hfind
        as [(Hr & -> & ->) | [(-> & Hin & -> & ->) | (-> & Hin & Hun & ->)]].
      * split; [by left|]. intros [?|(? & [= _ _ E _])]; [done|].
        by destruct Hr.
      * split; [by left|]. by intros [?|(? & [= -> -> _])].
      * rewrite Hun, elem_of_app, list_elem_of_singleton. split.
        -- intros [?|[= -> ->]]; [by left | right; eauto].
        -- intros [?|(? & [= -> -> _])]; [by left | by right].
Qed.

(** C3: in a build that started from a fresh index, a resolution that comes
    back empty returns normally and logs exactly one record when no earlier
    resolution of the same (identifier, layers) pair came back empty, and
    logs nothing when one did. *)
Theorem empty_resolution_logged_once fm (history : list Event)
    (anatomical_id : PyValue) (anatomical_layers : list PyValue)
    (fm' : FeatureMap G) (logged : list LogRecord) :
  steps FeatureMap_init history fm ->
  find_features_by_anatomical_id fm anatomical_id anatomical_layers
    = ([], fm', logged) ->
  (~ failed_before history anatomical_id anatomical_layers ->
     logged =
       [if (length anatomical_layers =? 0)%nat
        then CannotFind anatomical_id
        else CannotFindInLayers anatomical_id anatomical_layers])
  /\ (failed_before history anatomical_id anatomical_layers -> logged = [])
  /\ failed_before (history ++ [Resolved anatomical_id anatomical_layers [] logged])
       anatomical_id anatomical_layers
  /\ steps FeatureMap_init
       (history ++ [Resolved anatomical_id anatomical_layers [] logged]) fm'.
Proof.
  intros Hsteps Hfind.
  pose proof (unknown_anatomy_history _ _ Hsteps anatomical_id anatomical_layers)
    as Hinv.
  pose proof Hfind as Hcases.
  apply find_features_cases in Hcases
    as [(Hr & _) | [(_ & Hin & -> & ->) | (_ & Hin & Hun & ->)]];
    [done| |].
  - split; [intros Hnot; destruct Hnot; by apply Hinv|]. split; [done|]. split.
    + apply failed_before_snoc. right; eauto.
    + econstructor; [exact Hsteps | by constructor].
  - split; [done|]. split; [by intros ?%Hinv|]. split.
    + apply failed_before_snoc. right; eauto.
    + econstructor; [exact Hsteps | by constructor].
Qed.

End FeatureProperties.

(* ===================================================================== *)
(** ** Properties of the shape-tree reduction *)
(* ===================================================================== *)

Section PowerpointProperties.
Context {G : Type} `{BaseGeometry G} {MapLayer : Type}.
Variable check_markup_errors : Properties -> Properties.
Variable FEATURES_TILE_LAYER : PyValue.
Variable add_features :
  string -> list (Feature G) -> PowerpointLayer G MapLayer ->
  option (Feature G) * PowerpointLayer G MapLayer.

Local Abbreviation process_leaf' :=
  (process_leaf (MapLayer:=MapLayer) check_markup_errors FEATURES_TILE_LAYER).
Local Abbreviation process_shape' :=
  (process_shape check_markup_errors FEATURES_TILE_LAYER add_features).
Local Abbreviation process_shape_list' :=
  (process_shape_list check_markup_errors FEATURES_TILE_LAYER add_features).
Local Abbreviation final_properties' :=
  (final_properties check_markup_errors FEATURES_TILE_LAYER).
Local Abbreviation kept' := (kept check_markup_errors FEATURES_TILE_LAYER).
Local Abbreviation updated_node' :=
  (updated_node check_markup_errors FEATURES_TILE_LAYER).
Local Abbreviation updated' := (updated check_markup_errors FEATURES_TILE_LAYER).

Implicit Types (self : PowerpointLayer G MapLayer) (shape : Shape G)
  (node : TreeNode G) (shapes : list (TreeNode G)).

Lemma process_leaf_run shape self :
  process_leaf' shape self =
    let properties := final_properties' shape in
    let shape' := {| shape_geometry := shape_geometry shape;
                     shape_properties := properties |} in
    if dropped properties
    then (([], shape'), self, [CheckMarkupErrors (shape_properties shape)])
    else
      let feature :=
        Feature_init (last_feature_id (flatmap self) + 1)
          (shape_geometry shape) properties false in
      (([feature], shape'),
       after_new_feature self (shape_geometry shape) properties,
       [CheckMarkupErrors (shape_properties shape);
        NewFeature (shape_geometry shape) properties feature]).
Proof.
  unfold process_leaf, bind, call_check_markup_errors, final_properties.
  cbn zeta. destruct (dropped _); reflexivity.
Qed.

Lemma process_shape_ShapeNode shape self :
  process_shape' (ShapeNode shape) self =
    let '((appended, shape'), self', calls) := process_leaf' shape self in
    ((appended, ShapeNode shape'), self', calls).
Proof.
  cbn [process_shape]. unfold bind.
  destruct (process_leaf' shape self) as [[[appended shape'] self'] calls].
  cbn. by rewrite app_nil_r.
Qed.

Lemma process_shape_TreeList shapes self :
  process_shape' (TreeList shapes) self =
    let '((group_features, shapes'), self1, calls1) :=
      process_shape_list' shapes self in
    let '(grouped_feature, self2) :=
      add_features "Group" group_features self1 in
    ((append_if_not_None grouped_feature, TreeList shapes'), self2,
     calls1 ++ [AddFeatures "Group" group_features]).
Proof.
  cbn [process_shape]. unfold process_shape_list, bind, call_add_features.
  destruct (for_each_from_1 _ shapes self)
    as [[[group_features shapes'] self1] calls1].
  by destruct (add_features "Group" group_features self1)
    as [grouped_feature self2].
Qed.

Lemma for_each_cons {A} (body : A -> M (list (Feature G) * A)) (item : A)
    (rest : list A) self :
  for_each body (item :: rest) self =
    let '((appended, item'), self1, calls1) := body item self in
    let '((features, rest'), self2, calls2) := for_each body rest self1 in
    ((appended ++ features, item' :: rest'), self2, calls1 ++ calls2).
Proof.
  cbn [for_each]. unfold bind.
  destruct (body item self) as [[[appended item'] self1] calls1].
  destruct (for_each body rest self1) as [[[features rest'] self2] calls2].
  cbn. by rewrite app_nil_r.
Qed.

Lemma process_shape_list_cons (first : TreeNode G) (rest : list (TreeNode G)) self :
  process_shape_list' (first :: rest) self =
    let '((features, rest'), self1, calls1) :=
      for_each process_shape' rest self in
    ((features, first :: rest'), self1, calls1).
Proof.
  unfold process_shape_list, for_each_from_1, bind.
  destruct (for_each _ rest self) as [[[features rest'] self1] calls1].
  cbn. by rewrite app_nil_r.
Qed.

Lemma for_each_all_dropped (rest : list (TreeNode G)) self :
  Forall (fun node => exists shape,
            node = ShapeNode shape
            /\ dropped (final_properties' shape) = true) rest ->
  fst (fst (fst (for_each process_shape' rest self))) = []
  /\ snd (fst (for_each process_shape' rest self)) = self.
Proof.
  induction 1 as [|node rest (shape & -> & Hd) _ IH]; [done|].
  rewrite for_each_cons, process_shape_ShapeNode, process_leaf_run.
  cbn zeta. rewrite Hd.
  destruct (for_each process_shape' rest self) as [[[fs r'] s2] c2].
  cbn in IH |- *. by destruct IH as [-> ->].
Qed.

Lemma default_tile_layer_lookup (properties : Properties) (key : string) :
  key <> "tile-layer" ->
  default_tile_layer FEATURES_TILE_LAYER properties !! key = properties !! key.
Proof.
  intros Hkey. unfold default_tile_layer.
  destruct (dict_in _ _); [done|]. by rewrite lookup_insert_ne.
Qed.

Lemma default_tile_layer_present (properties : Properties) :
  is_Some (default_tile_layer FEATURES_TILE_LAYER properties !! "tile-layer").
Proof.
  unfold default_tile_layer, dict_in. case_bool_decide as Hin; [done|].
  rewrite lookup_insert_eq. eauto.
Qed.

Lemma dropped_drop_marked (validated : Properties) :
  dropped (default_tile_layer FEATURES_TILE_LAYER validated) = true <->
  drop_marked validated.
Proof.
  unfold dropped, drop_marked, dict_in, dict_get.
  rewrite !default_tile_layer_lookup by done.
  repeat case_bool_decide; try (split; [tauto | done]).
  destruct (truthy _); split; try done; tauto.
Qed.

(** C6, as the code has it: a visited shape is validated and its dictionary
    given the tile layer when it has none, whether or not the shape is then
    dropped.  When the validated dictionary has an [error], [invisible] or
    [path] key or a truthy [exclude], no Feature is created, nothing is
    appended and the layer is unchanged.  Otherwise one Feature is built by
    [new_feature] from the shape's geometry and that dictionary, and
    appended. *)
Theorem leaf_dropped_or_feature shape self :
  let validated := check_markup_errors (shape_properties shape) in
  let final := default_tile_layer FEATURES_TILE_LAYER validated in
  let feature :=
    Feature_init (last_feature_id (flatmap self) + 1)
      (shape_geometry shape) final false in
  let result := process_shape' (ShapeNode shape) self in
  snd (fst (fst result)) =
    ShapeNode {| shape_geometry := shape_geometry shape;
                 shape_properties := final |}
  /\ is_Some (final !! "tile-layer")
  /\ (drop_marked validated ->
      result =
        (([], ShapeNode {| shape_geometry := shape_geometry shape;
                           shape_properties := final |}),
         self, [CheckMarkupErrors (shape_properties shape)]))
  /\ (~ drop_marked validated ->
      fst (fst (fst result)) = [feature]
      /\ snd (fst result) =
           after_new_feature self (shape_geometry shape) final
      /\ snd result =
           [CheckMarkupErrors (shape_properties shape);
            NewFeature (shape_geometry shape) final feature]
      /\ geometry feature = shape_geometry shape
      /\ (forall key, key <> "geometry" -> key <> "featureId" ->
            properties feature !! key = final !! key)).
Proof.
  intros validated final feature result.
  subst result. rewrite process_shape_ShapeNode, process_leaf_run.
  cbn zeta. fold validated. unfold final_properties. fold validated final.
  pose proof (dropped_drop_marked validated) as Hd. fold final in Hd.
  split; [by destruct (dropped final)|].
  split; [apply default_tile_layer_present|].
  split.
  - intros Hm. apply Hd in Hm. by rewrite Hm.
  - intros Hm. destruct (dropped final) eqn:E; [by destruct Hm; apply Hd|].
    repeat split; try done.
    intros key Hg Hf. cbn. by rewrite !lookup_insert_ne.
Qed.

(** C8, as the code has it: for every nested list the reduction visits (an
    element from index 1 onward of a list it reduces) the aggregation step
    is called once, under the name [Group], with the list produced by the
    nested list's elements, empty or not.  What the nested list contributes
    to the enclosing list is the one Feature that call returns, nothing when
    it returns [None], and never the elements' Features themselves.  A
    nested list whose visited elements are all dropped shapes produces the
    empty list, which is still passed to the aggregation step.  A nested
    list at index 0 is not reduced and causes no call. *)
Theorem group_passed_to_add_features shapes self :
  let '((group_features, shapes'), self1, calls1) :=
    process_shape_list' shapes self in
  let '((appended, node'), self2, calls) :=
    process_shape' (TreeList shapes) self in
  calls = calls1 ++ [AddFeatures "Group" group_features]
  /\ appended =
       match fst (add_features "Group" group_features self1) with
       | Some feature => [feature]
       | None => []
       end
  /\ self2 = snd (add_features "Group" group_features self1)
  /\ node' = TreeList shapes'
  /\ (forall first,
        fst (fst (fst (process_shape_list' [first; TreeList shapes] self)))
        = match fst (add_features "Group" group_features self1) with
          | Some feature => [feature]
          | None => []
          end
        /\ snd (process_shape_list' [first; TreeList shapes] self)
           = calls1 ++ [AddFeatures "Group" group_features])
  /\ (length appended <= 1)%nat
  /\ (fst (add_features "Group" group_features self1) = None -> appended = [])
  /\ (Forall (fun node => exists shape,
                node = ShapeNode shape
                /\ dropped (final_properties' shape) = true) (tl shapes) ->
      group_features = [] /\ self1 = self
      /\ In (AddFeatures "Group" []) calls)
  /\ process_shape_list' [TreeList shapes] self
     = (([], [TreeList shapes]), self, []).
Proof.
  assert (Hlist : forall first,
            process_shape_list' [first; TreeList shapes] self
            = let '((appended, node'), self2, calls) :=
                process_shape' (TreeList shapes) self in
              ((appended, [first; node']), self2, calls)).
  { intros first. rewrite process_shape_list_cons, for_each_cons.
    destruct (process_shape' (TreeList shapes) self) as [[[fa a'] sa] ca].
    cbn. by rewrite !app_nil_r. }
  rewrite process_shape_TreeList in *.
  destruct (process_shape_list' shapes self)
    as [[[group_features shapes'] self1] calls1] eqn:Elist.
  destruct (add_features "Group" group_features self1)
    as [grouped_feature self2] eqn:Eadd.
  cbn [fst snd].
  split; [done|]. split; [by destruct grouped_feature|].
  split; [done|]. split; [done|].
  split; [intros first; rewrite Hlist; cbn; by destruct grouped_feature|].
  split; [destruct grouped_feature; cbn; lia|].
  split; [by intros ->|].
  split; [|done].
  intros Hall.
  assert (Hempty : group_features = [] /\ self1 = self).
  { destruct shapes as [|first rest]; [by injection Elist as <- _ <- _|].
    rewrite process_shape_list_cons in Elist. cbn [tl] in Hall.
    pose proof (for_each_all_dropped rest self Hall) as [Hfs Hst].
    destruct (for_each process_shape' rest self) as [[[fs r'] s2] c2].
    cbn in Hfs, Hst. by injection Elist as <- _ <- _. }
  destruct Hempty as [-> ->]. split; [done|]. split; [done|].
  apply in_or_app. right. by left.
Qed.

(* --------------------------------------------------------------------- *)
(** *** The element at index 0 *)

Lemma TreeNode_nested_ind (P : TreeNode G -> Prop) :
  (forall shape, P (ShapeNode shape)) ->
  (forall shapes, Forall P shapes -> P (TreeList shapes)) ->
  forall node, P node.
Proof.
  intros Hshape Hlist. fix IH 1. intros [shape|shapes]; [apply Hshape|].
  apply Hlist. induction shapes as [|node rest IHrest]; constructor.
  - apply IH.
  - exact IHrest.
Qed.

Lemma observable_for_each {A} (body : A -> M (list (Feature G) * A))
    (items1 items2 : list A) :
  Forall2
    (fun a b => forall self, observable (body a self) = observable (body b self))
    items1 items2 ->
  forall self,
    observable (for_each body items1 self)
    = observable (for_each body items2 self).
Proof.
  induction 1 as [|a b items1 items2 Hab _ IH]; intros self; [done|].
  rewrite !for_each_cons. specialize (Hab self).
  destruct (body a self) as [[[fa a'] sa] ca].
  destruct (body b self) as [[[fb b'] sb] cb].
  injection Hab as -> -> ->. specialize (IH sb).
  destruct (for_each body items1 sb) as [[[f1 r1] s1] c1].
  destruct (for_each body items2 sb) as [[[f2 r2] s2] c2].
  by injection IH as -> -> ->.
Qed.

Lemma observable_process_shape_list shapes1 shapes2 :
  Forall
    (fun node1 => forall node2,
       from_index_1_node node1 = from_index_1_node node2 ->
       forall self,
         observable (process_shape' node1 self)
         = observable (process_shape' node2 self))
    shapes1 ->
  from_index_1 shapes1 = from_index_1 shapes2 ->
  forall self,
    observable (process_shape_list' shapes1 self)
    = observable (process_shape_list' shapes2 self).
Proof.
  intros Hall Heq self.
  destruct shapes1 as [|first1 rest1], shapes2 as [|first2 rest2];
    cbn in Heq.
  - done.
  - symmetry in Heq. apply map_eq_nil in Heq as ->. done.
  - apply map_eq_nil in Heq as ->. done.
  - rewrite !process_shape_list_cons.
    assert (Hobs : observable (for_each process_shape' rest1 self)
                   = observable (for_each process_shape' rest2 self)).
    { apply observable_for_each. apply Forall_inv_tail in Hall.
      clear first1 first2 self. revert rest2 Heq.
      induction Hall as [|node1 rest1 Hnode _ IH]; intros [|node2 rest2] Heq;
        try discriminate; constructor.
      - apply Hnode. by injection Heq.
      - apply IH. by injection Heq. }
    destruct (for_each process_shape' rest1 self) as [[[f1 r1] s1] c1].
    destruct (for_each process_shape' rest2 self) as [[[f2 r2] s2] c2].
    by injection Hobs as -> -> ->.
Qed.

Lemma observable_process_shape node1 :
  forall node2,
    from_index_1_node node1 = from_index_1_node node2 ->
    forall self,
      observable (process_shape' node1 self)
      = observable (process_shape' node2 self).
Proof.
  induction node1 as [shape|shapes1 IH] using TreeNode_nested_ind;
    intros [shape2|shapes2] Heq self; try discriminate.
  - by injection Heq as ->.
  - injection Heq as Heq. rewrite !process_shape_TreeList.
    pose proof (observable_process_shape_list shapes1 shapes2 IH Heq self)
      as Hobs.
    destruct (process_shape_list' shapes1 self) as [[[f1 r1] s1] c1].
    destruct (process_shape_list' shapes2 self) as [[[f2 r2] s2] c2].
    injection Hobs as -> -> ->.
    by destruct (add_features "Group" f2 s2).
Qed.

Lemma process_shape_updated node :
  forall self, snd (fst (fst (process_shape' node self))) = updated_node' node.
Proof.
  induction node as [shape|shapes IH] using TreeNode_nested_ind; intros self.
  - rewrite process_shape_ShapeNode, process_leaf_run. cbn zeta.
    by destruct (dropped _).
  - rewrite process_shape_TreeList.
    destruct shapes as [|first rest].
    + cbn. by destruct (add_features _ _ _).
    + rewrite process_shape_list_cons.
      assert (Hrest : forall self0,
                snd (fst (fst (for_each process_shape' rest self0)))
                = map updated_node' rest).
      { apply Forall_inv_tail in IH. clear self.
        induction IH as [|node rest Hnode _ IHrest]; intros self0; [done|].
        rewrite for_each_cons. specialize (Hnode self0).
        destruct (process_shape' node self0) as [[[fa a'] sa] ca].
        specialize (IHrest sa).
        destruct (for_each process_shape' rest sa) as [[[f1 r1] s1] c1].
        cbn in *. by subst. }
      specialize (Hrest self).
      destruct (for_each process_shape' rest self) as [[[f1 r1] s1] c1].
      cbn in Hrest. subst r1.
      by destruct (add_features _ _ _).
Qed.

(** C9: what a reduction appends, does to the layer and calls depends only
    on the elements from index 1 onward of the list and of every nested
    list: two trees that agree there give the same Features, layer and calls
    (so no validation, drop test or Feature involves an element at index 0).
    In the tree the reduction leaves behind, each list's element at index 0
    is the one it had. *)
Theorem index_0_skipped shapes1 shapes2 self :
  from_index_1 shapes1 = from_index_1 shapes2 ->
  observable (process_shape_list' shapes1 self)
  = observable (process_shape_list' shapes2 self)
  /\ snd (fst (fst (process_shape_list' shapes1 self))) = updated' shapes1
  /\ hd_error (updated' shapes1) = hd_error shapes1
  /\ (forall first rest,
        observable (process_shape_list' (first :: rest) self)
        = observable (process_shape_list' (TreeList [] :: rest) self)).
Proof.
  intros Heq.
  assert (Hany : forall l1 l2 self0,
            from_index_1 l1 = from_index_1 l2 ->
            observable (process_shape_list' l1 self0)
            = observable (process_shape_list' l2 self0)).
  { intros l1 l2 self0 E. apply observable_process_shape_list; [|done].
    apply Forall_forall. intros node _. apply observable_process_shape. }
  split; [by apply Hany|]. split; [|split].
  - pose proof (process_shape_updated (TreeList shapes1) self) as Hup.
    rewrite process_shape_TreeList in Hup.
    destruct (process_shape_list' shapes1 self) as [[[f1 r1] s1] c1].
    destruct (add_features "Group" f1 s1). cbn in Hup |- *.
    by injection Hup.
  - by destruct shapes1.
  - intros first rest. by apply Hany.
Qed.

(* --------------------------------------------------------------------- *)
(** *** Order of the Features *)

Local Abbreviation built_in_order' :=
  (built_in_order check_markup_errors FEATURES_TILE_LAYER).

Lemma created_app (calls1 calls2 : list (Call G)) :
  created (calls1 ++ calls2) = created calls1 ++ created calls2.
Proof. apply flat_map_app. Qed.

Lemma kept_app (shapes1 shapes2 : list (Shape G)) :
  kept' (shapes1 ++ shapes2) = kept' shapes1 ++ kept' shapes2.
Proof. apply List.filter_app. Qed.

Lemma StronglySorted_app_lt (l1 l2 : list Z) (mid : Z) :
  StronglySorted Z.lt l1 -> StronglySorted Z.lt l2 ->
  Forall (fun i => i <= mid) l1 -> Forall (fun i => mid < i) l2 ->
  StronglySorted Z.lt (l1 ++ l2).
Proof.
  intros H1 H2 Hle Hlt. induction H1 as [|i l1 Hs IH Hi]; [done|].
  cbn. inversion Hle as [|? ? Hi_le Hle']; subst. constructor; [by apply IH|].
  apply Forall_app. split; [done|].
  eapply Forall_impl; [exact Hlt|]. cbn. lia.
Qed.

Lemma built_in_order_nil (lo hi : Z) :
  lo <= hi -> built_in_order' lo [] hi [].
Proof. intros Hle. repeat split; [constructor|done|constructor|constructor]. Qed.

Lemma built_in_order_weaken (lo hi hi' : Z) (fs : list (Feature G))
    (shapes : list (Shape G)) :
  built_in_order' lo fs hi shapes -> hi <= hi' ->
  built_in_order' lo fs hi' shapes.
Proof.
  intros (Hf & Hle & Hrange & Hsorted) Hhi. repeat split; [done|lia| |done].
  eapply Forall_impl; [exact Hrange|]. cbn. lia.
Qed.

Lemma built_in_order_app (lo mid hi : Z) (fs1 fs2 : list (Feature G))
    (shapes1 shapes2 : list (Shape G)) :
  built_in_order' lo fs1 mid shapes1 ->
  built_in_order' mid fs2 hi shapes2 ->
  built_in_order' lo (fs1 ++ fs2) hi (shapes1 ++ shapes2).
Proof.
  intros (Hf1 & Hle1 & Hr1 & Hs1) (Hf2 & Hle2 & Hr2 & Hs2).
  repeat split.
  - by apply Forall2_app.
  - lia.
  - apply Forall_app. split; (eapply Forall_impl; [eassumption|]); cbn; lia.
  - rewrite map_app. apply (StronglySorted_app_lt _ _ mid); try done.
    + apply Forall_map. eapply Forall_impl; [exact Hr1|]. cbn. lia.
    + apply Forall_map. eapply Forall_impl; [exact Hr2|]. cbn. lia.
Qed.

Section Monotone.
Hypothesis add_features_keeps_counter :
  forall group_name features self,
    last_feature_id (flatmap self)
    <= last_feature_id (flatmap (snd (add_features group_name features self))).

Lemma for_each_built_in_order (rest : list (TreeNode G)) :
  Forall
    (fun node => forall self,
       built_in_order' (last_feature_id (flatmap self))
         (created (snd (process_shape' node self)))
         (last_feature_id (flatmap (snd (fst (process_shape' node self)))))
         (kept' (visited_leaves node)))
    rest ->
  forall self,
    built_in_order' (last_feature_id (flatmap self))
      (created (snd (for_each process_shape' rest self)))
      (last_feature_id (flatmap (snd (fst (for_each process_shape' rest self)))))
      (kept' (flat_map visited_leaves rest)).
Proof.
  induction 1 as [|node rest Hnode _ IH]; intros self.
  - by apply built_in_order_nil.
  - rewrite for_each_cons. specialize (Hnode self).
    destruct (process_shape' node self) as [[[fa a'] sa] ca].
    specialize (IH sa).
    destruct (for_each process_shape' rest sa) as [[[f1 r1] s1] c1].
    cbn [fst snd flat_map] in *. rewrite created_app, kept_app.
    by eapply built_in_order_app.
Qed.

Lemma process_shape_built_in_order node :
  forall self,
    built_in_order' (last_feature_id (flatmap self))
      (created (snd (process_shape' node self)))
      (last_feature_id (flatmap (snd (fst (process_shape' node self)))))
      (kept' (visited_leaves node)).
Proof.
  induction node as [shape|shapes IH] using TreeNode_nested_ind; intros self.
  - rewrite process_shape_ShapeNode, process_leaf_run. cbn zeta.
    unfold kept. cbn [visited_leaves List.filter].
    destruct (dropped _) eqn:Hd; cbn [negb fst snd created flat_map app].
    + by apply built_in_order_nil.
    + unfold after_new_feature, new_feature. cbn [fst snd flatmap last_feature_id].
      repeat split; cbn [map]; unfold Feature_init; cbn [feature_id].
      * constructor; [reflexivity|constructor].
      * lia.
      * constructor; [cbn; lia|constructor].
      * repeat constructor.
  - rewrite process_shape_TreeList.
    destruct shapes as [|first rest].
    + cbn [process_shape_list for_each_from_1 ret].
      pose proof (add_features_keeps_counter "Group" [] self) as Hmono.
      destruct (add_features "Group" [] self) as [gf s2].
      cbn in *. by apply built_in_order_nil.
    + rewrite process_shape_list_cons.
      pose proof (for_each_built_in_order rest (Forall_inv_tail IH) self)
        as Hrest.
      destruct (for_each process_shape' rest self) as [[[f1 r1] s1] c1].
      pose proof (add_features_keeps_counter "Group" f1 s1) as Hmono.
      destruct (add_features "Group" f1 s1) as [gf s2].
      cbn [fst snd visited_leaves] in *.
      rewrite created_app. cbn [created flat_map]. rewrite app_nil_r.
      by eapply built_in_order_weaken.
Qed.

End Monotone.

Lemma for_each_shapes_only (rest : list (TreeNode G)) :
  forallb is_shape rest = true ->
  forall self,
    fst (fst (fst (for_each process_shape' rest self)))
    = created (snd (for_each process_shape' rest self))
    /\ fst (fst (fst (for_each process_shape' rest self)))
       = numbered (last_feature_id (flatmap self))
           (map (fun shape => (shape_geometry shape, final_properties' shape))
              (kept' (flat_map visited_leaves rest))).
Proof.
  induction rest as [|node rest IH]; intros Hall self; [done|].
  cbn [forallb] in Hall. apply andb_prop in Hall as [Hnode Hrest].
  destruct node as [shape|]; [clear Hnode|done].
  rewrite for_each_cons, process_shape_ShapeNode, process_leaf_run.
  cbn zeta. cbn [flat_map visited_leaves]. unfold kept in *.
  cbn [app List.filter].
  destruct (dropped _) eqn:Hd; cbn [negb].
  - specialize (IH Hrest self).
    destruct (for_each process_shape' rest self) as [[[f1 r1] s1] c1].
    cbn in *. done.
  - specialize (IH Hrest
      (after_new_feature self (shape_geometry shape) (final_properties' shape))).
    destruct (for_each process_shape' rest _) as [[[f1 r1] s1] c1].
    cbn [fst snd created flat_map app map numbered] in *.
    destruct IH as [IH1 IH2]. split; f_equal; done.
Qed.

Lemma for_each_app {A} (body : A -> M (list (Feature G) * A))
    (items1 items2 : list A) self :
  for_each body (items1 ++ items2) self =
    let '((features1, items1'), self1, calls1) := for_each body items1 self in
    let '((features2, items2'), self2, calls2) := for_each body items2 self1 in
    ((features1 ++ features2, items1' ++ items2'), self2, calls1 ++ calls2).
Proof.
  revert self. induction items1 as [|item items1 IH]; intros self; cbn [app].
  - cbn [for_each ret].
    by destruct (for_each body items2 self) as [[[f2 t2] s2] c2].
  - rewrite !for_each_cons.
    destruct (body item self) as [[[fa a'] sa] ca]. rewrite IH.
    destruct (for_each body items1 sa) as [[[f1 t1] s1] c1].
    destruct (for_each body items2 s1) as [[[f2 t2] s2] c2].
    by rewrite !app_assoc.
Qed.

Lemma for_each_created (rest : list (TreeNode G)) :
  Forall
    (fun node => forall self,
       Forall2
         (fun feature shape =>
            feature =
              Feature_init (feature_id feature) (shape_geometry shape)
                (final_properties' shape) false)
         (created (snd (process_shape' node self)))
         (kept' (visited_leaves node)))
    rest ->
  forall self,
    Forall2
      (fun feature shape =>
         feature =
           Feature_init (feature_id feature) (shape_geometry shape)
             (final_properties' shape) false)
      (created (snd (for_each process_shape' rest self)))
      (kept' (flat_map visited_leaves rest)).
Proof.
  induction 1 as [|node rest Hnode _ IH]; intros self; [constructor|].
  rewrite for_each_cons. specialize (Hnode self).
  destruct (process_shape' node self) as [[[fa a'] sa] ca].
  specialize (IH sa).
  destruct (for_each process_shape' rest sa) as [[[f1 r1] s1] c1].
  cbn [fst snd flat_map] in *. rewrite created_app, kept_app.
  by apply Forall2_app.
Qed.

Lemma process_shape_created node :
  forall self,
    Forall2
      (fun feature shape =>
         feature =
           Feature_init (feature_id feature) (shape_geometry shape)
             (final_properties' shape) false)
      (created (snd (process_shape' node self)))
      (kept' (visited_leaves node)).
Proof.
  induction node as [shape|shapes IH] using TreeNode_nested_ind; intros self.
  - rewrite process_shape_ShapeNode, process_leaf_run. cbn zeta.
    unfold kept. cbn [visited_leaves List.filter].
    destruct (dropped _) eqn:Hd; cbn [negb fst snd created flat_map app];
      repeat constructor.
  - rewrite process_shape_TreeList.
    destruct shapes as [|first rest].
    + cbn [process_shape_list for_each_from_1 ret].
      destruct (add_features "Group" [] self) as [gf s2]. cbn. constructor.
    + rewrite process_shape_list_cons.
      pose proof (for_each_created rest (Forall_inv_tail IH) self) as Hrest.
      destruct (for_each process_shape' rest self) as [[[f1 r1] s1] c1].
      destruct (add_features "Group" f1 s1) as [gf s2].
      cbn [fst snd visited_leaves] in *.
      rewrite created_app. cbn [created flat_map]. by rewrite app_nil_r.
Qed.

(** C7, as the code has it.  The element at index 0 of a list is left out.
    For every tree the returned list follows the order of the elements from
    index 1 onward: reducing a list gives what its front part gives followed
    by what the rest gives; a shape gives its Feature, or nothing when it is
    dropped; a nested list gives the one Feature the aggregation step
    returns for it, or nothing.  The Features built by [new_feature]
    correspond, one to one and in order, to the visited shapes that pass the
    drop tests in depth-first order, and their numeric ids increase strictly
    in that order when the aggregation step never lowers the id counter.
    When the visited elements are all shapes the returned list is that list
    of Features, numbered consecutively. *)
Theorem features_in_traversal_order shapes self :
  let result := process_shape_list' shapes self in
  let built := created (snd result) in
  let passing := kept' (traversal shapes) in
  (forall first rest1 rest2 self0,
     let result1 := process_shape_list' (first :: rest1) self0 in
     let result2 := process_shape_list' (first :: rest2) (snd (fst result1)) in
     let both := process_shape_list' (first :: rest1 ++ rest2) self0 in
     fst (fst (fst both)) = fst (fst (fst result1)) ++ fst (fst (fst result2))
     /\ snd (fst both) = snd (fst result2)
     /\ snd both = snd result1 ++ snd result2)
  /\ (forall first shape self0,
        fst (fst (fst (process_shape_list' [first; ShapeNode shape] self0)))
        = if dropped (final_properties' shape) then []
          else [Feature_init (last_feature_id (flatmap self0) + 1)
                  (shape_geometry shape) (final_properties' shape) false])
  /\ (forall first group self0,
        fst (fst (fst (process_shape_list' [first; TreeList group] self0)))
        = match
            fst (add_features "Group"
                   (fst (fst (fst (process_shape_list' group self0))))
                   (snd (fst (process_shape_list' group self0))))
          with
          | Some feature => [feature]
          | None => []
          end)
  /\ process_shape_list' [] self = (([], []), self, [])
  /\ Forall2
       (fun feature shape =>
          feature =
            Feature_init (feature_id feature) (shape_geometry shape)
              (final_properties' shape) false)
       built passing
  /\ ((forall group_name features layer,
         last_feature_id (flatmap layer)
         <= last_feature_id
              (flatmap (snd (add_features group_name features layer)))) ->
      StronglySorted Z.lt (map feature_id built)
      /\ Forall
           (fun feature => last_feature_id (flatmap self) < feature_id feature)
           built)
  /\ (forallb is_shape (tl shapes) = true ->
      fst (fst (fst result)) = built
      /\ built =
           numbered (last_feature_id (flatmap self))
             (map (fun shape => (shape_geometry shape, final_properties' shape))
                passing)).
Proof.
  intros result built passing. subst result built passing.
  split; [|split; [|split; [|split; [done|]]]].
  - intros first rest1 rest2 self0. cbn zeta.
    rewrite !process_shape_list_cons, for_each_app.
    destruct (for_each process_shape' rest1 self0) as [[[f1 t1] s1] c1].
    cbn [fst snd].
    by destruct (for_each process_shape' rest2 s1) as [[[f2 t2] s2] c2].
  - intros first shape self0.
    rewrite process_shape_list_cons, for_each_cons, process_shape_ShapeNode,
      process_leaf_run. cbn zeta.
    by destruct (dropped _).
  - intros first group self0.
    rewrite process_shape_list_cons, for_each_cons, process_shape_TreeList.
    destruct (process_shape_list' group self0) as [[[gf g'] s1] c1].
    cbn [fst snd].
    by destruct (add_features "Group" gf s1) as [[feature|] s2].
  - destruct shapes as [|first rest].
    { cbn. split; [constructor|]. split; [|done].
      intros _. split; constructor. }
    rewrite process_shape_list_cons. cbn [traversal tl].
    pose proof (for_each_created rest) as Hcreated.
    specialize (Hcreated ltac:(apply List.Forall_forall; intros node _;
                               apply process_shape_created) self).
    pose proof (for_each_shapes_only rest) as Honly.
    destruct (for_each process_shape' rest self) as [[[f1 r1] s1] c1] eqn:E.
    cbn [fst snd] in *.
    split; [exact Hcreated|]. split.
    + intros Hmono.
      pose proof (for_each_built_in_order rest) as Hrest.
      specialize (Hrest ltac:(apply List.Forall_forall; intros node _;
                              by apply process_shape_built_in_order) self).
      rewrite E in Hrest. cbn [fst snd] in Hrest.
      destruct Hrest as (_ & Hle & Hrange & Hsorted).
      split; [done|].
      eapply Forall_impl; [exact Hrange|]. cbn. lia.
    + intros Hall. specialize (Honly Hall self). rewrite E in Honly.
      cbn [fst snd] in Honly. destruct Honly as [H1 H2].
      split; [done|]. by rewrite <- H1.
Qed.

End PowerpointProperties.

(* ===================================================================== *)
(** ** The properties on concrete inputs *)
(* ===================================================================== *)

(** With the empty string the key stays in the dictionary, unlike after
    [del_property]. *)
Lemma set_property_empty_string_keeps_key :
  properties (set_property nerve_1 "models" (PyStr "")) !! "models"
    = Some (PyStr "")
  /\ properties (snd (del_property nerve_1 "models")) !! "models" = None
  /\ set_property nerve_1 "models" (PyStr "") <> snd (del_property nerve_1 "models").
Proof.
  split; [vm_compute; reflexivity|]. split; [vm_compute; reflexivity|].
  intros E. apply (f_equal (fun f => properties f !! "models")) in E.
  vm_compute in E. discriminate.
Qed.

(** A feature with id ["n1"], registered before one with id ["n2"]. *)
Lemma features_by_id_or_class_witness :
  features (fold_left add_feature [nerve_2] (add_feature FeatureMap_init nerve_1))
    (PyStr "n1") = [nerve_1]
  /\ features (add_feature FeatureMap_init nerve_1) (PyStr "nerve") = [].
Proof.
  destruct (features_by_id_or_class (add_feature FeatureMap_init nerve_1)
              (PyStr "nerve")) as (_ & Hclass & _).
  destruct (features_by_id_or_class (G:=Plane) FeatureMap_init (PyStr "n1"))
    as (_ & _ & Hid).
  split.
  - apply (Hid nerve_1 [nerve_2]); [reflexivity | discriminate |].
    constructor; [discriminate | constructor].
  - rewrite Hclass; reflexivity.
Defined.

(** Layers ["body"] (two matches) then ["organ"] (one match). *)
Lemma find_features_first_unique_or_last_witness :
  [PyStr "body"; PyStr "organ"] <> []
  /\ layer_matches example_index (PyStr "nerve") (PyStr "body")
     = [nerve_1; nerve_2]
  /\ fst (fst (find_features_by_anatomical_id example_index (PyStr "nerve")
                 [PyStr "body"; PyStr "organ"]))
     = [nerve_1].
Proof.
  assert (Hne : [PyStr "body"; PyStr "organ"] <> []) by discriminate.
  split; [exact Hne|]. split; [vm_compute; reflexivity|].
  destruct (find_features_first_unique_or_last example_index (PyStr "nerve")
              [PyStr "body"; PyStr "organ"] Hne) as (_ & _ & Hfirst & _).
  rewrite (Hfirst [PyStr "body"] (PyStr "organ") []).
  - vm_compute; reflexivity.
  - reflexivity.
  - constructor; [vm_compute; discriminate | constructor].
  - vm_compute; reflexivity.
Defined.

(** A failed resolution on a fresh index, then the same one again. *)
Lemma empty_resolution_logged_once_witness :
  steps (G:=Plane) FeatureMap_init [] FeatureMap_init
  /\ find_features_by_anatomical_id (G:=Plane) FeatureMap_init (PyStr "cortex")
       [PyStr "body"]
     = ([], index_after_failure,
        [CannotFindInLayers (PyStr "cortex") [PyStr "body"]])
  /\ steps FeatureMap_init
       [Resolved (PyStr "cortex") [PyStr "body"] []
          [CannotFindInLayers (PyStr "cortex") [PyStr "body"]]]
       index_after_failure
  /\ find_features_by_anatomical_id index_after_failure (PyStr "cortex")
       [PyStr "body"]
     = ([], index_after_failure, []).
Proof.
  assert (H0 : steps (G:=Plane) FeatureMap_init [] FeatureMap_init)
    by constructor.
  assert (H1 : find_features_by_anatomical_id (G:=Plane) FeatureMap_init
                 (PyStr "cortex") [PyStr "body"]
               = ([], index_after_failure,
                  [CannotFindInLayers (PyStr "cortex") [PyStr "body"]]))
    by reflexivity.
  split; [exact H0|]. split; [exact H1|].
  destruct (empty_resolution_logged_once FeatureMap_init []
              (PyStr "cortex") [PyStr "body"] index_after_failure
              [CannotFindInLayers (PyStr "cortex") [PyStr "body"]] H0 H1)
    as (_ & _ & _ & Hsteps).
  split; [exact Hsteps|].
  vm_compute; reflexivity.
Defined.

(** The ganglion lies in both regions. *)
Lemma match_list_repeats_candidates_witness :
  model_to_features example_index !! PyStr "ganglion" = Some [ganglion]
  /\ model_to_features example_index !! PyStr "region"
     = Some [region_1; region_2]
  /\ fst (fst (find_features_by_anatomical_id example_index (PyStr "ganglion")
                 [PyStr "region"]))
     = [ganglion; ganglion].
Proof.
  assert (H1 : model_to_features example_index !! PyStr "ganglion"
               = Some [ganglion]) by (vm_compute; reflexivity).
  assert (H2 : model_to_features example_index !! PyStr "region"
               = Some [region_1; region_2]) by (vm_compute; reflexivity).
  assert (H3 : contains (geometry region_1) (centroid (geometry ganglion))
               = true) by (vm_compute; reflexivity).
  assert (H4 : contains (geometry region_2) (centroid (geometry ganglion))
               = true) by (vm_compute; reflexivity).
  split; [exact H1|]. split; [exact H2|].
  destruct (match_list_repeats_candidates example_index (PyStr "ganglion")
              (PyStr "region") ganglion region_1 region_2 [] H1 H2
              H3 H4) as (_ & _ & _ & Hfind & _).
  exact Hfind.
Defined.

(** An invisible shape with no tile layer: it is dropped, and its dictionary
    has the tile layer afterwards. *)
Lemma dropped_shape_gets_tile_layer :
  shape_properties invisible_shape !! "tile-layer" = None
  /\ process_shape keep_properties features_tile_layer file_features
       (ShapeNode invisible_shape) empty_layer
     = (([], ShapeNode
               {| shape_geometry := PlanePoint 8 8;
                  shape_properties :=
                    <["tile-layer" := PyStr "features"]>
                      (shape_properties invisible_shape) |}),
        empty_layer,
        [CheckMarkupErrors (shape_properties invisible_shape)]).
Proof. split; vm_compute; reflexivity. Qed.

(** A group whose only visited element is excluded: the aggregation step is
    still called, with the empty list. *)
Lemma empty_group_passed_to_add_features :
  snd (process_shape keep_properties features_tile_layer file_features
         (TreeList [ShapeNode (plain_shape 0); ShapeNode excluded_shape])
         empty_layer)
  = [CheckMarkupErrors (shape_properties excluded_shape);
     AddFeatures "Group" []].
Proof. vm_compute; reflexivity. Qed.

(** Three shapes and nothing before them: the first is at index 0 and gives
    no Feature.  And a nested list whose shape passes: its Feature is built
    (it takes id 1) but is not in the returned list, which holds what the
    aggregation step returns for the nested list, here nothing. *)
Lemma three_shapes_give_two_features :
  fst (fst (fst (run_process_shape_list
                   [ShapeNode (plain_shape 1); ShapeNode (plain_shape 2);
                    ShapeNode (plain_shape 3)])))
  = [Feature_init 1 (PlanePoint 2 2)
       (<["tile-layer" := PyStr "features"]> {["shape-id" := PyInt 2]}) false;
     Feature_init 2 (PlanePoint 3 3)
       (<["tile-layer" := PyStr "features"]> {["shape-id" := PyInt 3]}) false]
  /\ fst (fst (fst (run_process_shape_list
                      [ShapeNode (plain_shape 0);
                       TreeList [ShapeNode (plain_shape 0);
                                 ShapeNode (plain_shape 1)];
                       ShapeNode (plain_shape 2)])))
     = [Feature_init 2 (PlanePoint 2 2)
          (<["tile-layer" := PyStr "features"]> {["shape-id" := PyInt 2]})
          false].
Proof. split; vm_compute; reflexivity. Qed.

(** Three shapes after the element at index 0, no groups. *)
Lemma features_in_traversal_order_witness :
  (forall group_name features layer,
     last_feature_id (flatmap layer)
     <= last_feature_id (flatmap (snd (file_features group_name features layer))))
  /\ fst (fst (fst (run_process_shape_list
                      [ShapeNode (plain_shape 0); ShapeNode (plain_shape 1);
                       ShapeNode (plain_shape 2); ShapeNode (plain_shape 3)])))
     = [Feature_init 1 (PlanePoint 1 1)
          (<["tile-layer" := PyStr "features"]> {["shape-id" := PyInt 1]}) false;
        Feature_init 2 (PlanePoint 2 2)
          (<["tile-layer" := PyStr "features"]> {["shape-id" := PyInt 2]}) false;
        Feature_init 3 (PlanePoint 3 3)
          (<["tile-layer" := PyStr "features"]> {["shape-id" := PyInt 3]}) false]
  /\ StronglySorted Z.lt
       (map feature_id
          (created
             (snd (run_process_shape_list
                     [ShapeNode (plain_shape 0);
                      TreeList [ShapeNode (plain_shape 0);
                                ShapeNode (plain_shape 1)];
                      ShapeNode (plain_shape 2)])))).
Proof.
  assert (Hmono : forall group_name features layer,
     last_feature_id (flatmap layer)
     <= last_feature_id (flatmap (snd (file_features group_name features layer))))
    by (intros; cbn; lia).
  split; [exact Hmono|]. split.
  - destruct (features_in_traversal_order keep_properties features_tile_layer
                file_features
                [ShapeNode (plain_shape 0); ShapeNode (plain_shape 1);
                 ShapeNode (plain_shape 2); ShapeNode (plain_shape 3)]
                empty_layer) as (_ & _ & _ & _ & _ & _ & Hshapes).
    destruct (Hshapes eq_refl) as [Hreturned Hbuilt].
    unfold run_process_shape_list. rewrite Hreturned, Hbuilt.
    vm_compute; reflexivity.
  - destruct (features_in_traversal_order keep_properties features_tile_layer
                file_features
                [ShapeNode (plain_shape 0);
                 TreeList [ShapeNode (plain_shape 0); ShapeNode (plain_shape 1)];
                 ShapeNode (plain_shape 2)]
                empty_layer) as (_ & _ & _ & _ & _ & Hsorted & _).
    exact (proj1 (Hsorted Hmono)).
Defined.

(** Two trees that differ at index 0 of the top list and of the group. *)
Lemma index_0_skipped_witness :
  from_index_1
    [ShapeNode (plain_shape 0);
     TreeList [ShapeNode excluded_shape; ShapeNode (plain_shape 1)];
     ShapeNode (plain_shape 2)]
  = from_index_1
      [TreeList [];
       TreeList [TreeList [ShapeNode invisible_shape]; ShapeNode (plain_shape 1)];
       ShapeNode (plain_shape 2)]
  /\ observable
       (run_process_shape_list
          [ShapeNode (plain_shape 0);
           TreeList [ShapeNode excluded_shape; ShapeNode (plain_shape 1)];
           ShapeNode (plain_shape 2)])
     = observable
         (run_process_shape_list
            [TreeList [];
             TreeList [TreeList [ShapeNode invisible_shape];
                       ShapeNode (plain_shape 1)];
             ShapeNode (plain_shape 2)]).
Proof.
  split; [reflexivity|].
  apply (index_0_skipped keep_properties features_tile_layer file_features).
  reflexivity.
Defined.

(* ===================================================================== *)
(** ** Further properties of [Feature] and [FeatureMap] *)
(* ===================================================================== *)

Section FeatureOperations.
Context {G : Type} `{BaseGeometry G}.
Implicit Types (f g : Feature G) (fm : FeatureMap G) (k : string)
  (fs : list (Feature G)).

(** X1: [set_property] with a value other than [None] is read back by
    [get_property] and [has_property] compares it with the empty string;
    whatever the value, no other key and no other field changes. *)
Theorem set_property_get_property f k (v dflt : PyValue) :
  v <> PyNone ->
  get_property (set_property f k v) k dflt = v
  /\ has_property (set_property f k v) k = py_ne v (PyStr "")
  /\ (forall (w : PyValue) k' (dflt' : PyValue),
        k' <> k ->
        get_property (set_property f k w) k' dflt' = get_property f k' dflt')
  /\ (forall w : PyValue,
        feature_id (set_property f k w) = feature_id f
        /\ geometry (set_property f k w) = geometry f
        /\ has_children (set_property f k w) = has_children f).
Proof.
  intros Hv. unfold get_property, has_property, dict_get.
  assert (Hset : forall w : PyValue,
            properties (set_property f k w) =
              if is_None w then delete k (properties f)
              else <[k := w]> (properties f)).
  { intros w. unfold set_property. destruct (is_None w); [|done].
    apply del_property_lookup. }
  split; [|split; [|split]].
  - rewrite Hset, (is_None_false v Hv). by rewrite lookup_insert_eq.
  - rewrite Hset, (is_None_false v Hv). by rewrite lookup_insert_eq.
  - intros w k' dflt' Hk. rewrite Hset.
    destruct (is_None w); [by rewrite lookup_delete_ne | by rewrite lookup_insert_ne].
  - intros w. unfold set_property, del_property.
    destruct (is_None w); [|done]. by destruct (properties f !! k).
Qed.

(** X2: [del_property] returns the value the key had ([None] when it had none),
    leaves the key unbound and every other key as it was; deleting again
    returns [None] and changes nothing. *)
Theorem del_property_returns_old f k :
  fst (del_property f k) = get_property f k PyNone
  /\ properties (snd (del_property f k)) !! k = None
  /\ (forall k', k' <> k ->
        properties (snd (del_property f k)) !! k' = properties f !! k')
  /\ del_property (snd (del_property f k)) k = (PyNone, snd (del_property f k)).
Proof.
  split; [|split; [|split]].
  - unfold del_property, get_property, dict_get.
    by destruct (properties f !! k).
  - rewrite del_property_lookup. apply lookup_delete_eq.
  - intros k' Hk. rewrite del_property_lookup. by apply lookup_delete_ne.
  - unfold del_property at 1. rewrite del_property_lookup, lookup_delete_eq.
    done.
Qed.

(** X3: A new Feature's dictionary has [featureId] and [geometry] set by the
    constructor, whatever the caller's dictionary held under these keys, and
    every other key as the caller's dictionary had it. *)
Theorem Feature_init_reserved_keys (n : Z) (geo : G) (props : Properties)
    (children : bool) :
  properties (Feature_init n geo props children) !! "featureId"
    = Some (PyInt n)
  /\ properties (Feature_init n geo props children) !! "geometry"
     = Some (PyStr (geom_type geo))
  /\ (forall k, k <> "featureId" -> k <> "geometry" ->
        properties (Feature_init n geo props children) !! k = props !! k)
  /\ id (Feature_init n geo props children) = default PyNone (props !! "id")
  /\ models (Feature_init n geo props children)
     = default PyNone (props !! "models").
Proof.
  unfold Feature_init, id, models, dict_get. cbn.
  split; [by rewrite lookup_insert_ne, lookup_insert_eq|].
  split; [by rewrite lookup_insert_eq|].
  split; [intros k H1 H2; by rewrite !lookup_insert_ne|].
  by rewrite !lookup_insert_ne.
Qed.

Lemma dict_get_defaultdict_append {K} `{Countable K} {V}
    (d : gmap K (list V)) (key k0 : K) (x : V) :
  dict_get (defaultdict_append d key x) k0 []
  = dict_get d k0 [] ++ (if decide (key = k0) then [x] else []).
Proof.
  unfold dict_get, defaultdict_append.
  destruct (decide (key = k0)) as [->|Hne].
  - by rewrite lookup_insert_eq.
  - by rewrite lookup_insert_ne, app_nil_r.
Qed.

Lemma add_feature_model_to_features fm f (key : PyValue) :
  dict_get (model_to_features (add_feature fm f)) key []
  = dict_get (model_to_features fm) key []
    ++ (if bool_decide (models f = key /\ key <> PyNone) then [f] else []).
Proof.
  unfold add_feature. cbn [model_to_features].
  destruct (is_None (models f)) eqn:E.
  - rewrite bool_decide_eq_false_2, app_nil_r; [done|].
    intros [<- Hne]. by destruct (models f).
  - rewrite dict_get_defaultdict_append.
    destruct (decide (models f = key)) as [<-|Hne].
    + rewrite bool_decide_eq_true_2; [done|].
      split; [done|]. intros E'. by rewrite E' in E.
    + rewrite bool_decide_eq_false_2; [done|]. by intros [? _].
Qed.

Lemma add_feature_class_to_features fm f (key : PyValue) :
  dict_get (class_to_features (add_feature fm f)) key []
  = dict_get (class_to_features fm) key []
    ++ (if bool_decide (properties f !! "class" = Some key /\ key <> PyStr "")
        then [f] else []).
Proof.
  unfold add_feature. cbn [class_to_features].
  destruct (has_property f "class") eqn:Ehp.
  - apply has_property_lookup in Ehp as (v & Hv & Hne).
    assert (Hget : get_property f "class" PyNone = v)
      by (unfold get_property, dict_get; by rewrite Hv).
    rewrite Hget, dict_get_defaultdict_append, Hv.
    destruct (decide (v = key)) as [<-|Hkey].
    + by rewrite bool_decide_eq_true_2.
    + rewrite bool_decide_eq_false_2; [done|]. by intros [[= ?] _].
  - rewrite bool_decide_eq_false_2, app_nil_r; [done|].
    intros [Hv Hne].
    assert (Htrue : has_property f "class" = true)
      by (apply has_property_lookup; eauto).
    congruence.
Qed.

(** X4: After a sequence of registrations the [model_to_features] list of a key
    is the list it was, followed by the registered features whose [models]
    is that key, in registration order and once per registration.  Every
    value other than [None] is a key, the empty string included. *)
Theorem registrations_by_model fm fs (key : PyValue) :
  dict_get (model_to_features (fold_left add_feature fs fm)) key []
  = dict_get (model_to_features fm) key []
    ++ List.filter (fun f => bool_decide (models f = key /\ key <> PyNone)) fs.
Proof.
  revert fm. induction fs as [|f fs IH]; intros fm; cbn [fold_left List.filter].
  - by rewrite app_nil_r.
  - rewrite IH, add_feature_model_to_features, <- app_assoc.
    by destruct (bool_decide _).
Qed.

(** X5: After a sequence of registrations the [class_to_features] list of a key
    is the list it was, followed by the registered features whose [class]
    property is bound to that key, in registration order.  The empty string
    is never a key; [None], when a feature's [class] is bound to it, is. *)
Theorem registrations_by_class fm fs (key : PyValue) :
  dict_get (class_to_features (fold_left add_feature fs fm)) key []
  = dict_get (class_to_features fm) key []
    ++ List.filter
         (fun f => bool_decide (properties f !! "class" = Some key
                                /\ key <> PyStr "")) fs.
Proof.
  revert fm. induction fs as [|f fs IH]; intros fm; cbn [fold_left List.filter].
  - by rewrite app_nil_r.
  - rewrite IH, add_feature_class_to_features, <- app_assoc.
    by destruct (bool_decide _).
Qed.

Lemma fold_add_feature_snoc fm fs f :
  fold_left add_feature (fs ++ [f]) fm
  = add_feature (fold_left add_feature fs fm) f.
Proof. by rewrite fold_left_app. Qed.

Lemma id_to_feature_registrations fm fs (key : PyValue) :
  key <> PyNone ->
  id_to_feature (fold_left add_feature fs fm) !! key
  = match last_with_id key fs with
    | Some f => Some f
    | None => id_to_feature fm !! key
    end.
Proof.
  intros Hkey. unfold last_with_id.
  induction fs as [|f fs IH] using rev_ind; [done|].
  rewrite fold_add_feature_snoc, rev_unit, add_feature_id_to_feature.
  cbn [List.find]. case_bool_decide as Hid.
  - rewrite is_None_false by congruence. subst key. apply lookup_insert_eq.
  - destruct (is_None (id f)); [done|]. by rewrite lookup_insert_ne.
Qed.

(** X6: After a sequence of registrations [id_to_feature] maps an id other than
    [None] to the last registered feature that carries it, and is as it was
    for an id no registered feature carries. *)
Theorem registrations_by_id fm fs (key : PyValue) :
  key <> PyNone ->
  id_to_feature (fold_left add_feature fs fm) !! key
  = match last_with_id key fs with
    | Some f => Some f
    | None => id_to_feature fm !! key
    end.
Proof. apply id_to_feature_registrations. Qed.

Lemma registrations_no_None_id fm fs :
  id_to_feature (fold_left add_feature fs fm) !! PyNone
  = id_to_feature fm !! PyNone.
Proof.
  induction fs as [|f fs IH] using rev_ind; [done|].
  rewrite fold_add_feature_snoc, add_feature_id_to_feature.
  destruct (is_None (id f)) eqn:E; [done|].
  rewrite lookup_insert_ne; [done|]. intros E'. by rewrite E' in E.
Qed.

(** X7: On an index filled from a fresh one, [duplicate_id] holds of an id other
    than [None] exactly when some registered feature carries it, and never
    holds of [None]. *)
Theorem duplicate_id_registered fs (key : PyValue) :
  (key <> PyNone ->
   duplicate_id (fold_left add_feature fs FeatureMap_init) key = true
   <-> exists f, In f fs /\ id f = key)
  /\ duplicate_id (fold_left add_feature fs FeatureMap_init) PyNone = false.
Proof.
  unfold duplicate_id. split.
  - intros Hkey.
    rewrite bool_decide_eq_true, id_to_feature_registrations by done.
    unfold last_with_id.
    destruct (List.find _ (rev fs)) as [f|] eqn:E.
    + apply find_some in E as [Hin Hid]. apply bool_decide_eq_true in Hid.
      split; [|eauto]. intros _. exists f. by rewrite (in_rev fs).
    + split; [by intros [? [=]]|]. intros (f & Hin & Hid).
      apply in_rev in Hin. apply (find_none _ _ E) in Hin.
      by apply bool_decide_eq_false in Hin.
  - rewrite registrations_no_None_id. by apply bool_decide_eq_false_2; intros [? [=]].
Qed.

Lemma NoDup_map_In_inj {A B} (h : A -> B) (l : list A) (x y : A) :
  List.NoDup (map h l) -> In x l -> In y l -> h x = h y -> x = y.
Proof.
  induction l as [|a l IH]; [done|]. cbn [map].
  intros Hnd. apply List.NoDup_cons_iff in Hnd as [Hna Hnd].
  intros [->|Hx] [->|Hy] E; [done| | |by apply IH].
  - destruct Hna. rewrite E. by apply in_map.
  - destruct Hna. rewrite <- E. by apply in_map.
Qed.

(** X8: Features registered on a fresh index under pairwise different ids, none
    of them [None], are found again by their ids: [feature_ids] of the ids
    gives the numeric ids, in the same order. *)
Theorem feature_ids_of_registered fs :
  List.NoDup (map id fs) ->
  Forall (fun f => id f <> PyNone) fs ->
  feature_ids (fold_left add_feature fs FeatureMap_init) (map id fs)
  = map feature_id fs.
Proof.
  intros Hnd Hids. unfold feature_ids.
  assert (Hone : forall f, In f fs ->
            features (fold_left add_feature fs FeatureMap_init) (id f) = [f]).
  { intros f Hin. unfold features.
    rewrite id_to_feature_registrations
      by exact (proj1 (List.Forall_forall _ _) Hids f Hin).
    unfold last_with_id.
    destruct (List.find _ (rev fs)) as [g|] eqn:E.
    - apply find_some in E as [Hg Hid]. apply bool_decide_eq_true in Hid.
      apply in_rev in Hg. by rewrite (NoDup_map_In_inj id fs g f Hnd Hg Hin Hid).
    - apply in_rev in Hin. apply (find_none _ _ E) in Hin.
      by apply bool_decide_eq_false in Hin. }
  clear Hnd Hids. revert Hone.
  generalize (fold_left add_feature fs FeatureMap_init) as fm.
  intros fm. induction fs as [|f fs IH]; intros Hone; [done|].
  cbn [map flat_map]. rewrite (Hone f) by (by left).
  cbn [map app]. f_equal. apply IH. intros g Hg. apply Hone. by right.
Qed.

(** X9: [add_feature] only adds: an id that was bound stays bound, and a list of
    [class_to_features] or [model_to_features] is a prefix of the list the
    key has afterwards; [unknown_anatomy] is untouched. *)
Theorem add_feature_only_adds fm f :
  (forall (key : PyValue), is_Some (id_to_feature fm !! key) ->
     is_Some (id_to_feature (add_feature fm f) !! key))
  /\ (forall (key : PyValue) l, class_to_features fm !! key = Some l ->
        exists l', class_to_features (add_feature fm f) !! key = Some (l ++ l'))
  /\ (forall (key : PyValue) l, model_to_features fm !! key = Some l ->
        exists l', model_to_features (add_feature fm f) !! key = Some (l ++ l'))
  /\ unknown_anatomy (add_feature fm f) = unknown_anatomy fm.
Proof.
  assert (Happend : forall (d : gmap PyValue (list (Feature G))) key0 key l,
            d !! key = Some l ->
            exists l', defaultdict_append d key0 f !! key = Some (l ++ l')).
  { intros d key0 key l Hl. unfold defaultdict_append.
    destruct (decide (key0 = key)) as [->|Hne].
    - rewrite lookup_insert_eq, Hl. by exists [f].
    - rewrite lookup_insert_ne by done. exists []. by rewrite app_nil_r. }
  split; [|split; [|split]].
  - intros key Hsome. rewrite add_feature_id_to_feature.
    destruct (is_None (id f)); [done|].
    destruct (decide (id f = key)) as [->|Hne].
    + rewrite lookup_insert_eq. eauto.
    + by rewrite lookup_insert_ne.
  - intros key l Hl. unfold add_feature. cbn [class_to_features].
    destruct (has_property f "class"); [by apply Happend|].
    exists []. by rewrite app_nil_r.
  - intros key l Hl. unfold add_feature. cbn [model_to_features].
    destruct (is_None (models f)); [|by apply Happend].
    exists []. by rewrite app_nil_r.
  - done.
Qed.

End FeatureOperations.

(* ===================================================================== *)
(** ** Further properties of the resolver *)
(* ===================================================================== *)

Section ResolverProperties.
Context {G : Type} `{BaseGeometry G}.
Implicit Types (fm : FeatureMap G).

Lemma find_features_model_to_features fm (anatomical_id : PyValue)
    (anatomical_layers : list PyValue) :
  model_to_features
    (snd (fst (find_features_by_anatomical_id fm anatomical_id
                 anatomical_layers)))
  = model_to_features fm.
Proof.
  unfold find_features_by_anatomical_id.
  repeat case_match; reflexivity.
Qed.

(** X10: A resolution never changes the three dictionaries; it appends at most
    one pair to [unknown_anatomy], never one that is already there, and logs
    at most one record. *)
Theorem find_features_keeps_dictionaries fm (anatomical_id : PyValue)
    (anatomical_layers : list PyValue) :
  let fm' :=
    snd (fst (find_features_by_anatomical_id fm anatomical_id
                anatomical_layers)) in
  let logged :=
    snd (find_features_by_anatomical_id fm anatomical_id anatomical_layers) in
  class_to_features fm' = class_to_features fm
  /\ id_to_feature fm' = id_to_feature fm
  /\ model_to_features fm' = model_to_features fm
  /\ (unknown_anatomy fm' = unknown_anatomy fm
      \/ unknown_anatomy fm'
         = unknown_anatomy fm ++ [(anatomical_id, anatomical_layers)]
         /\ ~ In (anatomical_id, anatomical_layers) (unknown_anatomy fm))
  /\ (List.NoDup (unknown_anatomy fm) -> List.NoDup (unknown_anatomy fm'))
  /\ (length logged <= 1)%nat.
Proof.
  unfold find_features_by_anatomical_id.
  set (r := if (length anatomical_layers =? 0)%nat then _ else _).
  destruct (length r =? 0)%nat;
    [|cbn; split; [done|]; split; [done|]; split; [done|];
      split; [by left|]; split; [done|lia]].
  case_bool_decide as Hin;
    [cbn; split; [done|]; split; [done|]; split; [done|];
      split; [by left|]; split; [done|lia]|].
  cbn. split; [done|]. split; [done|]. split; [done|].
  assert (Hnot : ~ In (anatomical_id, anatomical_layers) (unknown_anatomy fm))
    by (by rewrite <- list_elem_of_In).
  split; [by right|]. split; [|lia].
  intros Hnd. apply List.NoDup_app; [done|repeat constructor; by intros []|].
  intros x Hx [<-|[]]. done.
Qed.

Lemma layers_loop_candidates fm (candidates : list (Feature G))
    (layers : list PyValue) (acc : list (Feature G)) :
  Forall (fun f => In f candidates) acc ->
  Forall (fun f => In f candidates) (layers_loop fm candidates layers acc).
Proof.
  revert acc. induction layers as [|layer rest IH]; intros acc Hacc; [done|].
  cbn [layers_loop].
  assert (Hinc : Forall (fun f => In f candidates)
            (included_features_of
               (dict_get (model_to_features fm) layer []) candidates)).
  { apply List.Forall_forall. intros f Hf.
    by apply included_features_of_In in Hf as [Hf _]. }
  destruct (length _ =? 1)%nat; [done|]. by apply IH.
Qed.

(** X11: Whatever the layers, every feature a resolution returns is one of the
    features registered under the identifier; for an identifier that is not
    a key the result is empty. *)
Theorem find_features_are_candidates fm (anatomical_id : PyValue)
    (anatomical_layers : list PyValue) :
  let result :=
    fst (fst (find_features_by_anatomical_id fm anatomical_id
                anatomical_layers)) in
  Forall (fun f => In f (default [] (model_to_features fm !! anatomical_id)))
    result
  /\ (model_to_features fm !! anatomical_id = None -> result = []).
Proof.
  cbn zeta. rewrite find_features_result.
  assert (Hall : Forall
            (fun f => In f (default [] (model_to_features fm !! anatomical_id)))
            (if (length anatomical_layers =? 0)%nat
             then dict_get (model_to_features fm) anatomical_id []
             else layers_loop fm
                    (dict_get (model_to_features fm) anatomical_id [])
                    anatomical_layers [])).
  { destruct (length anatomical_layers =? 0)%nat.
    - by apply List.Forall_forall.
    - by apply layers_loop_candidates. }
  split; [exact Hall|].
  intros Hnone. rewrite Hnone in Hall. cbn in Hall.
  destruct Hall as [|f l []]; done.
Qed.

(** X12: When the last candidate layer has no registered features and no layer
    before it has exactly one match, the result is empty, whatever the
    earlier layers matched. *)
Theorem empty_last_layer_discards_matches fm (anatomical_id : PyValue)
    (before : list PyValue) (last_layer : PyValue) :
  default [] (model_to_features fm !! last_layer) = [] ->
  Forall (fun l => length (layer_matches fm anatomical_id l) <> 1%nat) before ->
  fst (fst (find_features_by_anatomical_id fm anatomical_id
              (before ++ [last_layer]))) = [].
Proof.
  intros Hlast Hbefore. rewrite find_features_result.
  replace (length (before ++ [last_layer]) =? 0)%nat with false
    by (rewrite length_app; cbn; symmetry; apply Nat.eqb_neq; lia).
  rewrite layers_loop_spec. cbn zeta.
  fold (layer_matches fm anatomical_id).
  assert (Hl : layer_matches fm anatomical_id last_layer = []).
  { unfold layer_matches, dict_get. by rewrite Hlast. }
  rewrite find_none_of_Forall.
  - rewrite map_app. cbn [map]. rewrite last_last. exact Hl.
  - apply Forall_map, Forall_app. split.
    + eapply Forall_impl; [exact Hbefore|]. intros l Hne. by apply Nat.eqb_neq.
    + constructor; [|constructor]. cbn beta. by rewrite Hl.
Qed.

Lemma find_features_unfold fm (anatomical_id : PyValue)
    (anatomical_layers : list PyValue) :
  find_features_by_anatomical_id fm anatomical_id anatomical_layers =
    let result :=
      fst (fst (find_features_by_anatomical_id fm anatomical_id
                  anatomical_layers)) in
    if (length result =? 0)%nat then
      if bool_decide ((anatomical_id, anatomical_layers) ∈ unknown_anatomy fm)
      then (result, fm, [])
      else
        (result,
         {| class_to_features := class_to_features fm;
            id_to_feature := id_to_feature fm;
            model_to_features := model_to_features fm;
            unknown_anatomy :=
              unknown_anatomy fm ++ [(anatomical_id, anatomical_layers)] |},
         [if (length anatomical_layers =? 0)%nat
          then CannotFind anatomical_id
          else CannotFindInLayers anatomical_id anatomical_layers])
    else (result, fm, []).
Proof.
  cbn zeta. rewrite find_features_result.
  unfold find_features_by_anatomical_id.
  destruct (length anatomical_layers =? 0)%nat; reflexivity.
Qed.

Lemma find_features_result_ext fm fm' (anatomical_id : PyValue)
    (anatomical_layers : list PyValue) :
  model_to_features fm = model_to_features fm' ->
  fst (fst (find_features_by_anatomical_id fm anatomical_id anatomical_layers))
  = fst (fst (find_features_by_anatomical_id fm' anatomical_id
                anatomical_layers)).
Proof.
  intros Hm. rewrite !find_features_result, !layers_loop_spec. cbn zeta.
  by rewrite Hm.
Qed.

(** X13: Resolving the same pair again, with nothing registered or changed in
    between, returns the same features, leaves the index as the first call
    left it and logs nothing. *)
Theorem find_features_again fm (anatomical_id : PyValue)
    (anatomical_layers : list PyValue) (result : list (Feature G))
    (fm1 : FeatureMap G) (logged : list LogRecord) :
  find_features_by_anatomical_id fm anatomical_id anatomical_layers
    = (result, fm1, logged) ->
  find_features_by_anatomical_id fm1 anatomical_id anatomical_layers
    = (result, fm1, []).
Proof.
  intros Hfind.
  pose proof (find_features_model_to_features fm anatomical_id
                anatomical_layers) as Hm.
  rewrite Hfind in Hm. cbn [fst snd] in Hm.
  pose proof (find_features_result_ext fm1 fm anatomical_id anatomical_layers
                Hm) as Hres.
  rewrite Hfind in Hres. cbn [fst snd] in Hres.
  rewrite find_features_unfold. cbn zeta. rewrite Hres.
  apply find_features_cases in Hfind
    as [(Hr & -> & ->) | [(-> & Hin & -> & ->) | (-> & Hin & Hun & ->)]].
  - destruct result; [done|reflexivity].
  - cbn. by rewrite bool_decide_eq_true_2.
  - cbn. rewrite bool_decide_eq_true_2; [done|].
    rewrite Hun. apply elem_of_app. right. by apply list_elem_of_singleton.
Qed.

End ResolverProperties.

(* ===================================================================== *)
(** ** Further properties of the shape-tree reduction *)
(* ===================================================================== *)

Section ReductionCalls.
Context {G : Type} `{BaseGeometry G} {MapLayer : Type}.
Variable check_markup_errors : Properties -> Properties.
Variable FEATURES_TILE_LAYER : PyValue.
Variable add_features :
  string -> list (Feature G) -> PowerpointLayer G MapLayer ->
  option (Feature G) * PowerpointLayer G MapLayer.

Local Abbreviation reduce_shape :=
  (process_shape check_markup_errors FEATURES_TILE_LAYER add_features).
Local Abbreviation reduce_list :=
  (process_shape_list check_markup_errors FEATURES_TILE_LAYER add_features).

Implicit Types (self : PowerpointLayer G MapLayer) (node : TreeNode G)
  (shapes : list (TreeNode G)).

Lemma validated_app (calls1 calls2 : list (Call G)) :
  validated (calls1 ++ calls2) = validated calls1 ++ validated calls2.
Proof. apply flat_map_app. Qed.

Lemma group_names_app (calls1 calls2 : list (Call G)) :
  group_names (calls1 ++ calls2) = group_names calls1 ++ group_names calls2.
Proof. apply flat_map_app. Qed.

Local Abbreviation step_summary node self :=
  (let result := reduce_shape node self in
   validated (snd result) = map shape_properties (visited_leaves node)
   /\ group_names (snd result) = repeat "Group" (visited_groups node)
   /\ (length (fst (fst (fst result))) <= 1)%nat).

Lemma list_sum_cons (n : nat) (l : list nat) :
  list_sum (n :: l) = (n + list_sum l)%nat.
Proof. reflexivity. Qed.

Lemma for_each_summary (rest : list (TreeNode G)) :
  Forall (fun node => forall self, step_summary node self) rest ->
  forall self,
    let result := for_each reduce_shape rest self in
    validated (snd result)
      = map shape_properties (flat_map visited_leaves rest)
    /\ group_names (snd result)
       = repeat "Group" (list_sum (map visited_groups rest))
    /\ (length (fst (fst (fst result))) <= length rest)%nat.
Proof.
  induction 1 as [|node rest Hnode _ IH]; intros self; [done|].
  cbn zeta. rewrite for_each_cons.
  destruct (Hnode self) as (Hv & Hg & Hlen).
  destruct (reduce_shape node self) as [[[fa a'] sa] ca].
  destruct (IH sa) as (Hv' & Hg' & Hlen').
  destruct (for_each reduce_shape rest sa) as [[[f1 r1] s1] c1].
  cbn [fst snd] in *.
  rewrite validated_app, group_names_app, Hv, Hv', Hg, Hg'.
  cbn [flat_map map]. rewrite list_sum_cons, map_app, repeat_app, length_app.
  repeat split; try done. cbn [length]. lia.
Qed.

Lemma process_shape_summary node : forall self, step_summary node self.
Proof.
  induction node as [shape|shapes IH] using TreeNode_nested_ind; intros self;
    cbn zeta.
  - rewrite process_shape_ShapeNode, process_leaf_run. cbn zeta.
    destruct (dropped _); cbn; repeat split; lia.
  - rewrite process_shape_TreeList.
    destruct shapes as [|first rest].
    + cbn [process_shape_list for_each_from_1 ret].
      destruct (add_features "Group" [] self) as [gf s2].
      cbn. repeat split. destruct gf; cbn; lia.
    + rewrite process_shape_list_cons.
      destruct (for_each_summary rest (Forall_inv_tail IH) self)
        as (Hv & Hg & _).
      destruct (for_each reduce_shape rest self) as [[[f1 r1] s1] c1].
      destruct (add_features "Group" f1 s1) as [gf s2].
      cbn [fst snd visited_leaves visited_groups] in *.
      rewrite validated_app, group_names_app, Hv, Hg. cbn.
      rewrite !app_nil_r.
      repeat split.
      * symmetry. apply repeat_cons.
      * destruct gf; cbn; lia.
Qed.

(** X14: The markup validator is called once for every visited shape, dropped or
    not, in depth-first order, each time with the dictionary the shape has
    at that moment. *)
Theorem every_visited_shape_validated shapes self :
  validated (snd (reduce_list shapes self))
  = map shape_properties (traversal shapes).
Proof.
  destruct shapes as [|first rest]; [done|].
  rewrite process_shape_list_cons.
  pose proof (for_each_summary rest) as Hrest.
  destruct (Hrest ltac:(apply List.Forall_forall; intros node _;
                        apply process_shape_summary) self) as (Hv & _).
  by destruct (for_each reduce_shape rest self) as [[[f1 r1] s1] c1].
Qed.

(** X15: The aggregation step is called once for every nested list the reduction
    visits, always under the name [Group]; and the list returned has at most
    one Feature for each element from index 1 onward. *)
Theorem one_group_call_per_visited_list shapes self :
  group_names (snd (reduce_list shapes self))
  = repeat "Group" (list_sum (map visited_groups (tl shapes)))
  /\ (length (fst (fst (fst (reduce_list shapes self))))
      <= length (tl shapes))%nat.
Proof.
  destruct shapes as [|first rest]; [by cbn|].
  rewrite process_shape_list_cons.
  pose proof (for_each_summary rest) as Hrest.
  destruct (Hrest ltac:(apply List.Forall_forall; intros node _;
                        apply process_shape_summary) self) as (_ & Hg & Hl).
  by destruct (for_each reduce_shape rest self) as [[[f1 r1] s1] c1].
Qed.

End ReductionCalls.

(* ===================================================================== *)
(** ** Properties of [update_label] *)
(* ===================================================================== *)

Section UpdateLabelProperties.
Context {G : Type}.
Variable lower : string -> string.
Variable str_of : PyValue -> string.

Implicit Types (f : Feature G).

Lemma append_empty_r (s : string) : s +:+ "" = s.
Proof.
  induction s as [|a s IH]; [done|].
  change (String a (s +:+ "") = String a s). by rewrite IH.
Qed.

(** X16: When [update_label] returns, the [label] key is bound to a value other
    than [None], and no other key and no other field of the feature has
    changed. *)
Theorem update_label_keeps_rest f f' :
  update_label lower str_of f = Some f' ->
  (exists v, properties f' !! "label" = Some v /\ v <> PyNone)
  /\ (forall k, k <> "label" -> properties f' !! k = properties f !! k)
  /\ feature_id f' = feature_id f
  /\ geometry f' = geometry f
  /\ has_children f' = has_children f.
Proof.
  unfold update_label. intros Hf.
  set (p1 := if is_None (dict_get (properties f) "label" PyNone)
             then <["label" := PyStr ""]> (properties f)
             else properties f) in *.
  assert (Hp1 : (exists v, p1 !! "label" = Some v /\ v <> PyNone)
                /\ forall k, k <> "label" -> p1 !! k = properties f !! k).
  { subst p1. unfold dict_get.
    destruct (properties f !! "label") as [[|n|s]|] eqn:E; cbn.
    - rewrite lookup_insert_eq. split; [by exists (PyStr "")|].
      intros k Hk. by rewrite lookup_insert_ne.
    - split; [by exists (PyInt n)|done].
    - split; [by exists (PyStr s)|done].
    - rewrite lookup_insert_eq. split; [by exists (PyStr "")|].
      intros k Hk. by rewrite lookup_insert_ne. }
  destruct Hp1 as [(v1 & Hv1 & Hne1) Hframe1].
  assert (Hstr : forall (v : PyValue) suffix w,
            py_iadd_str v suffix = Some w -> w <> PyNone).
  { intros [] suffix w; cbn; intros [= <-]; done. }
  clearbody p1.
  repeat (first [ progress simplify_option_eq | case_match ]).
  all: cbn [properties feature_id geometry has_children].
  all: repeat split; eauto.
  all: try (intros k Hk; rewrite ?lookup_insert_ne by done; by apply Hframe1).
  all: rewrite ?lookup_insert_eq; eauto.
Qed.

Lemma py_ne_PyStr (a b : string) :
  py_ne (PyStr a) (PyStr b) = negb (String.eqb a b).
Proof.
  unfold py_ne. f_equal. destruct (String.eqb_spec a b) as [->|Hne].
  - by apply bool_decide_eq_true_2.
  - apply bool_decide_eq_false_2. by intros [= ?].
Qed.

(** X17: A [name] bound to anything but a string makes [update_label] raise;
    [None] is such a value, so the test against [None] in the last [if]
    never decides anything. *)
Theorem update_label_needs_string_name f (v : PyValue) :
  properties f !! "name" = Some v ->
  (forall s, v <> PyStr s) ->
  update_label lower str_of f = None.
Proof.
  intros Hname Hv. unfold update_label.
  set (p1 := if is_None (dict_get (properties f) "label" PyNone)
             then <["label" := PyStr ""]> (properties f)
             else properties f).
  assert (Hframe : forall k, k <> "label" -> p1 !! k = properties f !! k).
  { intros k Hk. subst p1.
    destruct (is_None _); [by rewrite lookup_insert_ne|done]. }
  assert (Hn : dict_get p1 "name" (PyStr "") = v).
  { unfold dict_get. by rewrite Hframe, Hname. }
  rewrite Hn.
  assert (Hne : py_ne v (PyStr "") = true).
  { unfold py_ne. rewrite bool_decide_eq_false_2; [done|]. apply Hv. }
  rewrite Hne. destruct v as [|n|s]; [done|done|]. by destruct (Hv s).
Qed.

(** X18: With [label] absent, [None] or a string and [name] absent or a string,
    [update_label] returns, and the new label is the old text, then the
    model in parentheses when the feature has a model and the old text is
    not empty, then a new line and the name when the name is not empty and
    differs from the old text beyond letter case. *)
Theorem update_label_text f (label name : string) :
  label_text f = Some label ->
  name_text f = Some name ->
  exists f',
    update_label lower str_of f = Some f'
    /\ properties f' !! "label"
       = Some (PyStr
           ((label
             +:+ (if truthy (models f) && negb (String.eqb label "")
                  then " (" +:+ format_value str_of (models f) +:+ ")"
                  else ""))
            +:+ (if negb (String.eqb name "")
                    && negb (String.eqb (lower name) (lower label))
                 then newline +:+ name
                 else ""))).
Proof.
  intros Hlabel Hname. unfold update_label.
  set (p1 := if is_None (dict_get (properties f) "label" PyNone)
             then <["label" := PyStr ""]> (properties f)
             else properties f).
  assert (Hl : dict_get p1 "label" PyNone = PyStr label).
  { subst p1. unfold label_text in Hlabel. unfold dict_get.
    destruct (properties f !! "label") as [[|n|s]|] eqn:E; cbn;
      rewrite ?lookup_insert_eq, ?E; cbn; congruence. }
  assert (Hframe : forall k, k <> "label" -> p1 !! k = properties f !! k).
  { intros k Hk. subst p1.
    destruct (is_None _); [by rewrite lookup_insert_ne|done]. }
  assert (Hn : dict_get p1 "name" (PyStr "") = PyStr name).
  { unfold dict_get, name_text in *. rewrite Hframe by done.
    destruct (properties f !! "name") as [[|n|s]|]; cbn; congruence. }
  assert (Hm : dict_get p1 "models" PyNone = models f).
  { unfold models, dict_get. by rewrite Hframe. }
  assert (Hl' : p1 !! "label" = Some (PyStr label)).
  { unfold dict_get in Hl. destruct (p1 !! "label"); cbn in Hl; congruence. }
  rewrite Hl, Hn, Hm. clearbody p1.
  assert (Hget : forall (m : Properties) (w : PyValue),
            dict_get (<["label" := w]> m) "label" PyNone = w).
  { intros m w. unfold dict_get. by rewrite lookup_insert_eq. }
  destruct (String.eqb name "") eqn:En;
    destruct (String.eqb (lower name) (lower label)) eqn:Ec;
    destruct (truthy (models f) && negb (String.eqb label "")) eqn:Et;
    repeat (first [ rewrite py_ne_PyStr | rewrite En | rewrite Ec | rewrite Et
                  | rewrite Hget | rewrite Hl | progress cbn ]);
    eexists; (split; [reflexivity|]);
    repeat (first [ rewrite lookup_insert_eq | rewrite Hl'
                  | rewrite append_empty_r | progress cbn ]);
    done.
Qed.

End UpdateLabelProperties.

(* ===================================================================== *)
(** ** Properties of [PowerpointSource.process] *)
(* ===================================================================== *)

Section SourceProperties.
Variable save_drawml : bool.
Implicit Types (self : PowerpointSource) (n : Z).

Lemma added_layers_app (events1 events2 : list SourceEvent) :
  added_layers (events1 ++ events2)
  = added_layers events1 ++ added_layers events2.
Proof. apply flat_map_app. Qed.

Lemma first_requested self :
  match source_range self with
  | None => source_slides self <> [] -> hd 1 (slide_numbers self) = 1
  | Some range => hd_error range = hd_error (slide_numbers self)
  end.
Proof.
  unfold slide_numbers. destruct (source_range self); [done|].
  by destruct (source_slides self).
Qed.

Lemma process_slide_skipped self n :
  in_presentation self n = false -> process_slide save_drawml self n = Some [].
Proof.
  unfold in_presentation, process_slide. intros Hout.
  replace ((n <? 1) || (Z.of_nat (length (source_slides self)) + 1 <=? n))
    with true; [done|].
  symmetry. apply andb_false_iff in Hout as [Hout|Hout].
  - apply orb_true_iff. left. lia.
  - apply orb_true_iff. right. lia.
Qed.

Lemma process_slide_layer self n :
  source_range self <> Some [] ->
  in_presentation self n = true ->
  exists layer events,
    process_slide save_drawml self n = Some events
    /\ added_layers events = [layer]
    /\ layer_for self layer n.
Proof.
  unfold in_presentation, process_slide. intros Hrange Hin.
  apply andb_true_iff in Hin as [Hlo Hhi].
  replace ((n <? 1) || (Z.of_nat (length (source_slides self)) + 1 <=? n))
    with false by (symmetry; apply orb_false_iff; lia).
  unfold py_index at 1.
  replace (n - 1 <? 0) with false by lia.
  destruct (source_slides self !! Z.to_nat (n - 1)) as [slide|] eqn:Eslide.
  2: { apply lookup_ge_None in Eslide. lia. }
  cbn [mbind option_bind]. unfold PowerpointLayer_init.
  pose proof (first_requested self) as Hfirst.
  destruct (source_range self) as [[|first range]|] eqn:Erange; [done| |].
  - cbn. eexists _, _. split; [reflexivity|].
    split; [by destruct save_drawml|].
    unfold layer_for. cbn. repeat split; try done.
    unfold slide_numbers in *. rewrite Erange. done.
  - cbn. eexists _, _. split; [reflexivity|].
    split; [by destruct save_drawml|].
    unfold layer_for. cbn. repeat split; try done.
    rewrite Hfirst; [done|]. intros Hnil.
    apply lookup_lt_Some in Eslide. rewrite Hnil in Eslide. cbn in Eslide. lia.
Qed.

Lemma process_slides_layers self (numbers : list Z) :
  source_range self <> Some [] ->
  exists events,
    process_slides save_drawml self numbers = Some events
    /\ Forall2 (fun layer n => layer_for self layer n)
         (added_layers events)
         (List.filter (in_presentation self) numbers).
Proof.
  intros Hrange. induction numbers as [|n rest (later & Hlater & IH)].
  - exists []. split; [done|constructor].
  - cbn [process_slides List.filter].
    destruct (in_presentation self n) eqn:Hin.
    + destruct (process_slide_layer self n Hrange Hin)
        as (layer & events & Hev & Hadd & Hlayer).
      rewrite Hev, Hlater. cbn. eexists. split; [reflexivity|].
      rewrite added_layers_app, Hadd. by constructor.
    + rewrite (process_slide_skipped self n Hin), Hlater. cbn.
      by exists later.
Qed.

Lemma process_layers self :
  exists events,
    PowerpointSource_process save_drawml self = Some events
    /\ Forall2 (fun layer n => layer_for self layer n)
         (added_layers events)
         (List.filter (in_presentation self) (slide_numbers self)).
Proof.
  unfold PowerpointSource_process.
  destruct (decide (source_range self = Some [])) as [Hempty|Hrange].
  - unfold slide_numbers. rewrite Hempty. cbn.
    eexists. split; [reflexivity|].
    destruct (_ && _); cbn; constructor.
  - destruct (process_slides_layers self (slide_numbers self) Hrange)
      as (events & Hev & Hlayers).
    rewrite Hev. cbn. eexists. split; [reflexivity|].
    rewrite added_layers_app.
    destruct (_ && _); cbn; by rewrite app_nil_r.
Qed.

(** X19: [process] never raises.  It adds one layer for every requested slide
    number that denotes a slide of the presentation, in the order requested
    and as often as requested, each for the slide at that position; other
    numbers are passed over. *)
Theorem process_adds_requested_slides self :
  exists events,
    PowerpointSource_process save_drawml self = Some events
    /\ map layer_slide_number (added_layers events)
       = List.filter (in_presentation self) (slide_numbers self)
    /\ Forall
         (fun layer =>
            source_slides self !! Z.to_nat (layer_slide_number layer - 1)
            = Some (layer_slide layer))
         (added_layers events).
Proof.
  destruct (process_layers self) as (events & Hev & Hlayers).
  exists events. split; [exact Hev|].
  induction Hlayers as [|layer n layers numbers (Hn & Hslide & _) _ [IH1 IH2]];
    [by split|].
  split; [cbn; by rewrite Hn, IH1|].
  constructor; [by rewrite Hn|done].
Qed.

(** X20: A layer is exported exactly when its slide number is the first number
    requested (1 when no range is given).  So when the first number of the
    range denotes no slide of the presentation, no layer is exported. *)
Theorem exported_layer_is_first_requested self (events : list SourceEvent) :
  PowerpointSource_process save_drawml self = Some events ->
  Forall
    (fun layer =>
       layer_exported layer
       = (layer_slide_number layer =? hd 1 (slide_numbers self)))
    (added_layers events)
  /\ (in_presentation self (hd 1 (slide_numbers self)) = false ->
      Forall (fun layer => layer_exported layer = false) (added_layers events)).
Proof.
  intros Hev. destruct (process_layers self) as (events' & Hev' & Hlayers).
  rewrite Hev in Hev'. injection Hev' as <-.
  assert (Hin : Forall (fun n => in_presentation self n = true)
                  (List.filter (in_presentation self) (slide_numbers self))).
  { apply List.Forall_forall. intros n Hn. by apply filter_In in Hn as [_ ?]. }
  induction Hlayers as [|layer n layers numbers (Hn & _ & Hexp & _) _ IH];
    [by split|].
  inversion Hin as [|? ? Hn_in Hin']; subst.
  destruct (IH Hin') as [IH1 IH2]. split.
  - constructor; [by rewrite Hexp|done].
  - intros Hout. constructor; [|by apply IH2].
    rewrite Hexp. apply Z.eqb_neq. intros E. rewrite <- E in Hout. congruence.
Qed.

(** X21: A layer takes the id of the source as it is only for slide 1 requested
    alone; in every other case its id is the source's id, a slash and the
    slide's id, also when the other numbers requested denote no slide. *)
Theorem layer_id_of_source_or_slide self (events : list SourceEvent) :
  PowerpointSource_process save_drawml self = Some events ->
  Forall
    (fun layer =>
       layer_id layer =
         if (layer_slide_number layer =? 1)
            && (length (slide_numbers self) =? 1)%nat
         then source_id self
         else source_id self +:+ "/" +:+ slide_id (layer_slide layer))
    (added_layers events).
Proof.
  intros Hev. destruct (process_layers self) as (events' & Hev' & Hlayers).
  rewrite Hev in Hev'. injection Hev' as <-.
  induction Hlayers as [|layer n layers numbers (Hn & _ & _ & Hid) _ IH];
    constructor; [by rewrite Hn|done].
Qed.

End SourceProperties.

(* ===================================================================== *)
(** ** Properties of [DeGrouper.__process_element] *)
(* ===================================================================== *)

Lemma XmlNode_nested_ind (P : XmlNode -> Prop) :
  (forall text tail, P (XmlComment text tail)) ->
  (forall tag attrib text tail children,
     Forall P children -> P (XmlElement tag attrib text tail children)) ->
  forall node, P node.
Proof.
  intros Hcomment Helement. fix IH 1.
  intros [text tail|tag attrib text tail children]; [apply Hcomment|].
  apply Helement. induction children as [|child rest IHrest]; constructor.
  - apply IH.
  - exact IHrest.
Qed.

Lemma add_children_nil (output : XmlOutput) : add_children output [] = output.
Proof. destruct output. unfold add_children. cbn. by rewrite app_nil_r. Qed.

Lemma add_children_app (output : XmlOutput) (nodes1 nodes2 : list XmlNode) :
  add_children (add_children output nodes1) nodes2
  = add_children output (nodes1 ++ nodes2).
Proof. unfold add_children. cbn. by rewrite app_assoc. Qed.

Lemma fold_process_element_into (children : list XmlNode) :
  Forall
    (fun child => forall output,
       process_element_into child output
       = add_children output (degrouped child))
    children ->
  forall output,
    fold_left (fun out child => process_element_into child out) children output
    = add_children output (flat_map degrouped children).
Proof.
  induction 1 as [|child rest Hchild _ IH]; intros output; cbn [fold_left flat_map].
  - by rewrite add_children_nil.
  - by rewrite Hchild, IH, add_children_app.
Qed.

Lemma process_element_into_degrouped (element : XmlNode) :
  forall output,
    process_element_into element output
    = add_children output (degrouped element).
Proof.
  induction element as [text tail|tag attrib text tail children IH]
    using XmlNode_nested_ind; intros output; cbn [process_element_into degrouped].
  - by rewrite add_children_nil.
  - rewrite !(fold_process_element_into children IH).
    by destruct (makes_subelement tag attrib children).
Qed.

Lemma process_element_root tag attrib text tail children :
  process_element (XmlElement tag attrib text tail children)
  = if clashes_with_parameters attrib then None
    else Some {| out_tag := tag; out_attrib := attrib; out_text := None;
                 out_tail := None;
                 out_children := flat_map degrouped children |}.
Proof.
  cbn [process_element]. destruct (clashes_with_parameters attrib); [done|].
  rewrite fold_process_element_into; [done|].
  apply List.Forall_forall. intros child _.
  apply process_element_into_degrouped.
Qed.

(** X22: Processing an element into an output only appends to the output's
    children: its tag, attributes, text, tail and the children it had stay,
    and what is appended does not depend on the output.  For a root the call
    raises when an attribute of the root is named like a parameter of
    [etree.Element]; otherwise the element returned has the root's tag and
    attributes, no text and no tail. *)
Theorem process_element_only_appends (element : XmlNode) (output : XmlOutput) :
  process_element_into element output
  = add_children output (degrouped element)
  /\ (forall other : XmlOutput,
        out_children (process_element_into element other)
        = out_children other ++ degrouped element)
  /\ (forall tag attrib text tail children,
        process_element (XmlElement tag attrib text tail children)
        = if clashes_with_parameters attrib then None
          else Some {| out_tag := tag; out_attrib := attrib; out_text := None;
                       out_tail := None;
                       out_children := flat_map degrouped children |})
  /\ (forall tag attrib name value text tail children,
        In name ["_tag"; "attrib"; "nsmap"] ->
        In (name, value) attrib ->
        process_element (XmlElement tag attrib text tail children) = None).
Proof.
  split; [apply process_element_into_degrouped|]. split.
  - intros other. by rewrite process_element_into_degrouped.
  - split; [apply process_element_root|].
    intros tag attrib name value text tail children Hname Hin.
    rewrite process_element_root.
    replace (clashes_with_parameters attrib) with true; [done|].
    symmetry. apply existsb_exists. exists (name, value). split; [done|].
    apply bool_decide_eq_true_2. by apply list_elem_of_In.
Qed.

Lemma degrouped_no_comment (element : XmlNode) :
  existsb has_comment (degrouped element) = false.
Proof.
  induction element as [text tail|tag attrib text tail children IH]
    using XmlNode_nested_ind; [done|].
  assert (Hchildren : existsb has_comment (flat_map degrouped children) = false).
  { induction IH as [|child rest Hchild _ IHrest]; [done|].
    cbn [flat_map]. by rewrite existsb_app, Hchild, IHrest. }
  cbn [degrouped]. destruct (makes_subelement tag attrib children); [|done].
  cbn. by rewrite Hchildren.
Qed.

(** X23: The tree returned for a root holds no comment, at any depth. *)
Theorem degrouped_tree_has_no_comment (root : XmlNode) (output : XmlOutput) :
  process_element root = Some output ->
  has_comment (XmlOutput_node output) = false.
Proof.
  destruct root as [text tail|tag attrib text tail children]; [done|].
  rewrite process_element_root.
  destruct (clashes_with_parameters attrib); [done|]. intros [= <-]. cbn.
  induction children as [|child rest IH]; [done|].
  cbn [flat_map]. by rewrite existsb_app, degrouped_no_comment, IH.
Qed.

Lemma degrouped_elements (element : XmlNode) :
  flat_map elements_of (degrouped element) = subelements_of element.
Proof.
  induction element as [text tail|tag attrib text tail children IH]
    using XmlNode_nested_ind; [done|].
  assert (Hchildren :
            flat_map elements_of (flat_map degrouped children)
            = flat_map subelements_of children).
  { induction IH as [|child rest Hchild _ IHrest]; [done|].
    cbn [flat_map]. by rewrite flat_map_app, Hchild, IHrest. }
  cbn [degrouped subelements_of].
  destruct (makes_subelement tag attrib children); [|done].
  cbn. by rewrite app_nil_r, Hchildren.
Qed.

(** X24: For a root none of whose attributes is named like a parameter of
    [etree.Element], an element is returned, and the elements of the
    returned tree, in document order, are the root (without its text and
    tail) and then the elements of the input, in document order, other than
    the groups without attributes and with at most one child node, each with
    its tag, attributes, text and tail. *)
Theorem degrouped_elements_in_document_order tag attrib text tail children :
  clashes_with_parameters attrib = false ->
  exists output,
    process_element (XmlElement tag attrib text tail children) = Some output
    /\ elements_of (XmlOutput_node output)
       = (tag, attrib, None, None) :: flat_map subelements_of children.
Proof.
  intros Hclash.
  eexists. split; [by rewrite process_element_root, Hclash|]. cbn. f_equal.
  induction children as [|child rest IH]; [done|].
  cbn [flat_map]. by rewrite flat_map_app, degrouped_elements, IH.
Qed.

Lemma degrouped_kept_whole (element : XmlNode) :
  kept_whole element = true -> degrouped element = [element].
Proof.
  induction element as [text tail|tag attrib text tail children IH]
    using XmlNode_nested_ind; [done|].
  cbn [kept_whole degrouped]. intros [Hsub Hall]%andb_true_iff.
  rewrite Hsub. do 2 f_equal. clear Hsub.
  induction IH as [|child rest Hchild _ IHrest]; [done|].
  cbn [forallb] in Hall. apply andb_true_iff in Hall as [Hc Hr].
  cbn [flat_map]. by rewrite (Hchild Hc), (IHrest Hr).
Qed.

(** X25: A root none of whose attributes is named like a parameter of
    [etree.Element] and whose descendants include no comment and no group
    without attributes and with at most one child node comes back with the
    same children; only its text and tail are gone. *)
Theorem degroup_keeps_whole_tree tag attrib text tail children :
  clashes_with_parameters attrib = false ->
  forallb kept_whole children = true ->
  process_element (XmlElement tag attrib text tail children)
  = Some {| out_tag := tag; out_attrib := attrib; out_text := None;
            out_tail := None; out_children := children |}.
Proof.
  intros Hclash Hall. rewrite process_element_root, Hclash. do 2 f_equal.
  induction children as [|child rest IH]; [done|].
  cbn [forallb] in Hall. apply andb_true_iff in Hall as [Hc Hr].
  cbn [flat_map]. by rewrite (degrouped_kept_whole child Hc), IH.
Qed.

(* ===================================================================== *)
(** ** Properties of the zoom checks of [main] *)
(* ===================================================================== *)

(** X26: The zoom levels are accepted exactly when
    [0 <= min <= initial <= max <= 15].  The exit about [--min-zoom] is
    taken exactly when [min] is negative or above [max], so the exit about
    [--max-zoom] is taken only for a [max] above 15, never for a [max]
    below [min]. *)
Theorem main_map_zoom_accepts (min_zoom max_zoom initial_zoom : Z) :
  (main_map_zoom min_zoom max_zoom initial_zoom
     = inr (min_zoom, max_zoom, initial_zoom)
   <-> 0 <= min_zoom <= initial_zoom /\ initial_zoom <= max_zoom <= 15)
  /\ (main_map_zoom min_zoom max_zoom initial_zoom = inl (MinZoomExit max_zoom)
      <-> min_zoom < 0 \/ max_zoom < min_zoom)
  /\ (main_map_zoom min_zoom max_zoom initial_zoom = inl (MaxZoomExit min_zoom)
      <-> 0 <= min_zoom <= max_zoom /\ 15 < max_zoom)
  /\ (main_map_zoom min_zoom max_zoom initial_zoom
        = inl (InitialZoomExit min_zoom max_zoom)
      <-> 0 <= min_zoom <= max_zoom /\ max_zoom <= 15
          /\ (initial_zoom < min_zoom \/ max_zoom < initial_zoom)).
Proof.
  unfold main_map_zoom.
  destruct (Z.ltb_spec min_zoom 0), (Z.ltb_spec max_zoom min_zoom),
    (Z.ltb_spec 15 max_zoom), (Z.ltb_spec initial_zoom min_zoom),
    (Z.ltb_spec max_zoom initial_zoom); cbn [orb];
    repeat split; intros; try discriminate; try lia; try done.
Qed.

(* ===================================================================== *)
(** ** The further properties on concrete inputs *)
(* ===================================================================== *)

Lemma set_property_get_property_witness :
  PyStr "vagus" <> PyNone
  /\ get_property (set_property nerve_1 "label" (PyStr "vagus")) "label" PyNone
     = PyStr "vagus"
  /\ get_property (set_property nerve_1 "label" (PyStr "vagus")) "models" PyNone
     = PyStr "nerve".
Proof.
  assert (Hne : PyStr "vagus" <> PyNone) by discriminate.
  split; [exact Hne|].
  destruct (set_property_get_property nerve_1 "label" (PyStr "vagus") PyNone Hne)
    as (Hget & _ & Hframe & _).
  split; [exact Hget|].
  rewrite Hframe; [vm_compute; reflexivity | discriminate].
Defined.

Lemma registrations_by_id_witness :
  PyStr "n1" <> PyNone
  /\ id_to_feature
       (fold_left add_feature [nerve_1; nerve_2; set_property ganglion "id" (PyStr "n1")]
          FeatureMap_init) !! PyStr "n1"
     = Some (set_property ganglion "id" (PyStr "n1")).
Proof.
  assert (Hne : PyStr "n1" <> PyNone) by discriminate.
  split; [exact Hne|].
  rewrite (registrations_by_id FeatureMap_init
             [nerve_1; nerve_2; set_property ganglion "id" (PyStr "n1")]
             (PyStr "n1") Hne).
  vm_compute; reflexivity.
Defined.

Lemma feature_ids_of_registered_witness :
  List.NoDup (map id [nerve_1; nerve_2])
  /\ Forall (fun f : Feature Plane => id f <> PyNone) [nerve_1; nerve_2]
  /\ feature_ids (fold_left add_feature [nerve_1; nerve_2] FeatureMap_init)
       [PyStr "n1"; PyStr "n2"]
     = [1; 2].
Proof.
  assert (Hnd : List.NoDup (map id [nerve_1; nerve_2])).
  { repeat constructor; cbn; intros Hin;
      repeat destruct Hin as [Hin|Hin]; try discriminate; done. }
  assert (Hids : Forall (fun f : Feature Plane => id f <> PyNone)
                   [nerve_1; nerve_2])
    by (repeat constructor; discriminate).
  split; [exact Hnd|]. split; [exact Hids|].
  exact (feature_ids_of_registered [nerve_1; nerve_2] Hnd Hids).
Defined.

Lemma empty_last_layer_discards_matches_witness :
  default [] (model_to_features example_index !! PyStr "cortex") = []
  /\ Forall
       (fun l => length (layer_matches example_index (PyStr "nerve") l) <> 1%nat)
       [PyStr "body"]
  /\ fst (fst (find_features_by_anatomical_id example_index (PyStr "nerve")
                 [PyStr "body"; PyStr "cortex"])) = [].
Proof.
  assert (H1 : default [] (model_to_features example_index !! PyStr "cortex")
               = []) by (vm_compute; reflexivity).
  assert (H2 : Forall
            (fun l => length (layer_matches example_index (PyStr "nerve") l)
                      <> 1%nat) [PyStr "body"]).
  { constructor; [vm_compute; discriminate | constructor]. }
  split; [exact H1|]. split; [exact H2|].
  exact (empty_last_layer_discards_matches example_index (PyStr "nerve")
           [PyStr "body"] (PyStr "cortex") H1 H2).
Defined.

Lemma find_features_again_witness :
  find_features_by_anatomical_id (G:=Plane) FeatureMap_init (PyStr "cortex")
    [PyStr "body"]
  = ([], index_after_failure,
     [CannotFindInLayers (PyStr "cortex") [PyStr "body"]])
  /\ find_features_by_anatomical_id index_after_failure (PyStr "cortex")
       [PyStr "body"]
     = ([], index_after_failure, []).
Proof.
  assert (H1 : find_features_by_anatomical_id (G:=Plane) FeatureMap_init
                 (PyStr "cortex") [PyStr "body"]
               = ([], index_after_failure,
                  [CannotFindInLayers (PyStr "cortex") [PyStr "body"]]))
    by reflexivity.
  split; [exact H1|].
  exact (find_features_again _ _ _ _ _ _ H1).
Defined.

Lemma update_label_text_witness :
  label_text heart = Some "Heart"
  /\ name_text heart = Some "heart"
  /\ exists f',
       update_label lower_heart (fun _ => "") heart = Some f'
       /\ properties f' !! "label" = Some (PyStr "Heart (UBERON:0000948)").
Proof.
  assert (H1 : label_text heart = Some "Heart") by (vm_compute; reflexivity).
  assert (H2 : name_text heart = Some "heart") by (vm_compute; reflexivity).
  split; [exact H1|]. split; [exact H2|].
  destruct (update_label_text lower_heart (fun _ => "") heart "Heart" "heart"
              H1 H2) as (f' & Hf & Hlabel).
  exists f'. split; [exact Hf|]. rewrite Hlabel. vm_compute; reflexivity.
Defined.

Lemma update_label_keeps_rest_witness :
  exists f',
    update_label lower_heart (fun _ => "") heart = Some f'
    /\ properties f' !! "name" = Some (PyStr "heart")
    /\ feature_id f' = 8.
Proof.
  destruct (update_label lower_heart (fun _ => "") heart) as [f'|] eqn:Hf;
    [|vm_compute in Hf; discriminate].
  exists f'. split; [reflexivity|].
  destruct (update_label_keeps_rest lower_heart (fun _ => "") heart f' Hf)
    as (_ & Hframe & Hid & _).
  split; [|exact Hid].
  rewrite Hframe; [vm_compute; reflexivity | discriminate].
Defined.

Lemma update_label_needs_string_name_witness :
  properties nameless !! "name" = Some PyNone
  /\ (forall s, PyNone <> PyStr s)
  /\ update_label lower_heart (fun _ => "") nameless = None.
Proof.
  assert (H1 : properties nameless !! "name" = Some PyNone)
    by (vm_compute; reflexivity).
  assert (H2 : forall s, PyNone <> PyStr s) by discriminate.
  split; [exact H1|]. split; [exact H2|].
  exact (update_label_needs_string_name lower_heart (fun _ => "") nameless
           PyNone H1 H2).
Defined.

Lemma exported_layer_is_first_requested_witness :
  exists events,
    PowerpointSource_process false two_slides = Some events
    /\ map layer_slide_number (added_layers events) = [1]
    /\ Forall (fun layer => layer_exported layer = false) (added_layers events).
Proof.
  eexists. split; [vm_compute; reflexivity|].
  split; [vm_compute; reflexivity|].
  eapply (exported_layer_is_first_requested false two_slides);
    vm_compute; reflexivity.
Defined.

Lemma layer_id_of_source_or_slide_witness :
  exists events,
    PowerpointSource_process false two_slides = Some events
    /\ map layer_slide_number (added_layers events) = [1]
    /\ Forall
         (fun layer =>
            layer_id layer =
              if (layer_slide_number layer =? 1)
                 && (length (slide_numbers two_slides) =? 1)%nat
              then "rat"
              else "rat" +:+ "/" +:+ slide_id (layer_slide layer))
         (added_layers events).
Proof.
  eexists. split; [vm_compute; reflexivity|].
  split; [vm_compute; reflexivity|].
  apply (layer_id_of_source_or_slide false two_slides).
  vm_compute; reflexivity.
Defined.

Lemma degrouped_tree_has_no_comment_witness :
  exists output,
    process_element svg_with_group = Some output
    /\ out_children output = [svg_path "a"]
    /\ has_comment (XmlOutput_node output) = false.
Proof.
  eexists. split; [vm_compute; reflexivity|].
  split; [vm_compute; reflexivity|].
  apply (degrouped_tree_has_no_comment svg_with_group). vm_compute; reflexivity.
Defined.

Lemma degroup_keeps_whole_tree_witness :
  clashes_with_parameters [("viewBox", "0 0 10 10")] = false
  /\ forallb kept_whole [svg_path "a"; svg_path "b"] = true
  /\ process_element svg_plain
     = Some {| out_tag := "{http://www.w3.org/2000/svg}svg";
               out_attrib := [("viewBox", "0 0 10 10")];
               out_text := None; out_tail := None;
               out_children := [svg_path "a"; svg_path "b"] |}.
Proof.
  assert (H0 : clashes_with_parameters [("viewBox", "0 0 10 10")] = false)
    by (vm_compute; reflexivity).
  assert (H1 : forallb kept_whole [svg_path "a"; svg_path "b"] = true)
    by (vm_compute; reflexivity).
  split; [exact H0|]. split; [exact H1|].
  exact (degroup_keeps_whole_tree _ _ None None _ H0 H1).
Defined.

Lemma degrouped_elements_in_document_order_witness :
  clashes_with_parameters [("viewBox", "0 0 10 10")] = false
  /\ exists output,
       process_element svg_with_group = Some output
       /\ elements_of (XmlOutput_node output)
          = [("{http://www.w3.org/2000/svg}svg", [("viewBox", "0 0 10 10")],
              None, None);
             ("{http://www.w3.org/2000/svg}path", [("id", "a")], None, None)].
Proof.
  assert (H0 : clashes_with_parameters [("viewBox", "0 0 10 10")] = false)
    by (vm_compute; reflexivity).
  split; [exact H0|].
  destruct (degrouped_elements_in_document_order
              "{http://www.w3.org/2000/svg}svg" [("viewBox", "0 0 10 10")]
              None None
              [ XmlElement "{http://www.w3.org/2000/svg}g" [] None None
                  [svg_path "a"];
                XmlComment "made by hand" None ] H0)
    as (output & Hout & Helements).
  exists output. split; [exact Hout|]. rewrite Helements.
  vm_compute; reflexivity.
Defined.
